(** * OAV parameter store: a shallow embedding of
    [src/dodal/devices/oav/oav_parameters.py]

    The class [OAVParameters] reads three files (a JSON document of global and
    per-context parameters, an XML zoom calibration table and a line-oriented
    beam-position file) and keeps the derived values as attributes of [self].

    Python objects read from JSON are the inductive [value]; a [dict] is a
    [gmap string value]; a [ChainMap] is the list of its maps; the attributes
    of [self] are a record whose late-bound fields are options ([None]: not
    yet assigned, or assigned Python's [None]); methods are computations in a
    state-and-exception monad over that record.  What the interpreter and the
    standard library do on text (parsing JSON, XML and numerals, printing a
    float) is kept abstract in the class [Builtins]: every general theorem
    holds for any implementation of it. *)

From Stdlib Require Import ZArith Floats Ascii String.
From stdpp Require Import gmap strings list fin_maps.

#[local] Set Warnings "-register-all,-inexact-float".
Local Open Scope Z_scope.

(** ** Python values *)

Inductive value :=
| VNone
| VBool (b : bool)
| VInt (n : Z)
| VFloat (f : float)
| VStr (s : string)
| VList (l : list value)
| VDict (d : gmap string value).

Abbreviation dict := (gmap string value).

Definition is_dict (v : value) : bool :=
  match v with VDict _ => true | _ => false end.

Definition as_dict (v : value) : option dict :=
  match v with VDict d => Some d | _ => None end.

(** [type(v).__name__] *)
Definition type_name (v : value) : string :=
  match v with
  | VNone => "NoneType"
  | VBool _ => "bool"
  | VInt _ => "int"
  | VFloat _ => "float"
  | VStr _ => "str"
  | VList _ => "list"
  | VDict _ => "dict"
  end.

(** [bool(v)]: the test behind [if not zoom]. *)
Definition truthy (v : value) : bool :=
  match v with
  | VNone => false
  | VBool b => b
  | VInt n => negb (n =? 0)
  | VFloat f => negb (PrimFloat.eqb f 0%float)
  | VStr s => negb (String.eqb s "")
  | VList l => match l with [] => false | _ => true end
  | VDict d => match map_to_list d with [] => false | _ => true end
  end.

(** ** Exceptions and outcomes *)

Inductive exn_class :=
| AssertionError
| AttributeError
| FileNotFoundError
| IndexError
| JSONDecodeError
| KeyError
| OverflowError
| ParseError
| PermissionError
| TypeError
| UnboundLocalError
| ValueError
| ZeroDivisionError
| OAVError_BeamPositionNotFound
| OAVError_ZoomLevelNotFound.

Definition exn_class_eqb (a b : exn_class) : bool :=
  match a, b with
  | AssertionError, AssertionError | AttributeError, AttributeError
  | FileNotFoundError, FileNotFoundError | IndexError, IndexError
  | JSONDecodeError, JSONDecodeError | KeyError, KeyError
  | OverflowError, OverflowError | ParseError, ParseError
  | PermissionError, PermissionError | TypeError, TypeError
  | UnboundLocalError, UnboundLocalError | ValueError, ValueError
  | ZeroDivisionError, ZeroDivisionError
  | OAVError_BeamPositionNotFound, OAVError_BeamPositionNotFound
  | OAVError_ZoomLevelNotFound, OAVError_ZoomLevelNotFound => true
  | _, _ => false
  end.

(** The two exception classes the module imports from [oav_errors]. *)
Definition is_oav_error (c : exn_class) : bool :=
  match c with
  | OAVError_BeamPositionNotFound | OAVError_ZoomLevelNotFound => true
  | _ => false
  end.

(** An exception: its class, and its message when a [raise] statement of the
    module built it ([None] for one raised by the interpreter or a library,
    whose text is not modelled). *)
Record exn := Exn { exn_cls : exn_class; exn_msg : option string }.

Inductive outcome (A : Type) :=
| Ret (a : A)
| Raise (e : exn).
Arguments Ret {A} a.
Arguments Raise {A} e.

Definition builtin_error {A} (c : exn_class) : outcome A := Raise (Exn c None).

Definition obind {A B} (o : outcome A) (k : A -> outcome B) : outcome B :=
  match o with
  | Ret a => k a
  | Raise e => Raise e
  end.

Definition raises {A} (o : outcome A) (c : exn_class) : bool :=
  match o with
  | Ret _ => false
  | Raise e => exn_class_eqb (exn_cls e) c
  end.

(** ** Element trees ([xml.etree]) *)

Inductive element :=
| Element (tag : string) (text : option string) (children : list element).

Definition tag_of (e : element) : string := let 'Element t _ _ := e in t.
Definition text_of (e : element) : option string := let 'Element _ t _ := e in t.
Definition children_of (e : element) : list element := let 'Element _ _ c := e in c.

(** [e.find(tag)]: the first child of [e] with that tag. *)
Definition find (tag : string) (e : element) : option element :=
  List.find (fun c => String.eqb (tag_of c) tag) (children_of e).

(** [e.findall(".//" + tag)]: every descendant of [e] with that tag, in
    document order. *)
Fixpoint findall (tag : string) (e : element) : list element :=
  let 'Element _ _ cs := e in
  (fix go (l : list element) : list element :=
     match l with
     | [] => []
     | c :: l' =>
         (if String.eqb (tag_of c) tag then [c] else []) ++ findall tag c ++ go l'
     end) cs.

(** ** Files *)

Inductive file :=
| NoSuchFile
| NoPermission
| Text (content : string).

Abbreviation filesystem := (string -> file).

(** [open(path).read()] *)
Definition read_file (fs : filesystem) (path : string) : outcome string :=
  match fs path with
  | NoSuchFile => builtin_error FileNotFoundError
  | NoPermission => builtin_error PermissionError
  | Text s => Ret s
  end.

(** ** The interpreter's and the library's text functions *)

Class Builtins := {
  (** [json.loads]; [None]: [json.JSONDecodeError] *)
  json_loads : string -> option value;
  (** [xml.etree.ElementTree.fromstring]; [None]: [ParseError] *)
  xml_fromstring : string -> option element;
  (** [float(s)] on a [str]; [None]: [ValueError] *)
  float_of_str : string -> option float;
  (** [int(s)] on a [str]; [None]: [ValueError] *)
  int_of_str : string -> option Z;
  (** [repr(v)] *)
  repr : value -> string;
}.

(** ** Numeric conversions of the interpreter *)

(** [float(n)] on an [int]: the nearest double, ties to even;
    [OverflowError] when that is not finite. *)
Definition float_of_Z (n : Z) : outcome float :=
  match binary_normalize prec emax n 0 false with
  | S754_infinity _ => builtin_error OverflowError
  | sf => Ret (SF2Prim sf)
  end.

(** [int(f)] on a [float]: truncation towards zero. *)
Definition Z_of_float (f : float) : outcome Z :=
  match Prim2SF f with
  | S754_nan => builtin_error ValueError
  | S754_infinity _ => builtin_error OverflowError
  | S754_zero _ => Ret 0
  | S754_finite s m e =>
      let a := Z.shiftl (Zpos m) e in
      Ret (if s then - a else a)
  end.

(** [f == n] for a [float] and an [int]: the comparison is exact. *)
Definition float_eq_Z (f : float) (n : Z) : bool :=
  match Prim2SF f with
  | S754_zero _ => n =? 0
  | S754_finite s m e =>
      let a := if s then Zneg m else Zpos m in
      if 0 <=? e then a * 2 ^ e =? n else a =? n * 2 ^ (- e)
  | _ => false
  end.

(** [f == v]: numbers compare by value, anything else is unequal. *)
Definition py_float_eq (f : float) (v : value) : bool :=
  match v with
  | VFloat g => PrimFloat.eqb f g
  | VInt n => float_eq_Z f n
  | VBool b => float_eq_Z f (Z.b2z b)
  | _ => false
  end.

(** [a / b] on floats *)
Definition float_truediv (a b : float) : outcome float :=
  if PrimFloat.eqb b 0%float then builtin_error ZeroDivisionError
  else Ret (a / b)%float.

Section Coercions.
Context `{Builtins}.

(** [float(v)] *)
Definition py_float (v : value) : outcome float :=
  match v with
  | VBool b => Ret (if b then 1%float else 0%float)
  | VInt n => float_of_Z n
  | VFloat f => Ret f
  | VStr s =>
      match float_of_str s with
      | Some f => Ret f
      | None => builtin_error ValueError
      end
  | VNone | VList _ | VDict _ => builtin_error TypeError
  end.

(** [int(v)] *)
Definition py_int (v : value) : outcome Z :=
  match v with
  | VBool b => Ret (Z.b2z b)
  | VInt n => Ret n
  | VFloat f => Z_of_float f
  | VStr s =>
      match int_of_str s with
      | Some n => Ret n
      | None => builtin_error ValueError
      end
  | VNone | VList _ | VDict _ => builtin_error TypeError
  end.

(** [str(v)] *)
Definition py_str (v : value) : string :=
  match v with
  | VStr s => s
  | _ => repr v
  end.

(** The three classes [update] is called with: what calling the class
    does, and how the class prints in a message. *)
Record pytype (A : Type) := PyType {
  call : value -> outcome A;
  class_repr : string;
}.
Arguments call {A} p v.
Arguments class_repr {A} p.

Definition float_t : pytype float := PyType _ py_float "<class 'float'>".
Definition int_t : pytype Z := PyType _ py_int "<class 'int'>".
Definition str_t : pytype string := PyType _ (fun v => Ret (py_str v)) "<class 'str'>".
End Coercions.
Arguments call {A} p v.
Arguments class_repr {A} p.

(** ** The object

    One field per attribute of [self], typed as the source annotates it.  An
    attribute assigned after the first lines of [__init__] is an option:
    [None] until it is assigned (reading it then raises [AttributeError]), and
    for [micronsPerXPixel] and [micronsPerYPixel] also when it holds Python's
    [None]. *)

Record OAVParameters := {
  zoom_params_file : string;
  oav_config_json : string;
  display_config : string;
  context : string;
  global_params : dict;
  context_dicts : gmap string dict;
  active_params : list dict;
  exposure : option float;
  acquire_period : option float;
  gain : option float;
  canny_edge_upper_threshold : option float;
  canny_edge_lower_threshold : option float;
  minimum_height : option Z;
  zoom : option float;
  preprocess : option Z;
  preprocess_K_size : option Z;
  detection_script_filename : option string;
  close_ksize : option Z;
  min_callback_time : option float;
  direction : option Z;
  max_tip_distance : option float;
  micronsPerXPixel : option float;
  micronsPerYPixel : option float;
  max_tip_distance_pixels : option float;
  beam_centre_i : option Z;
  beam_centre_j : option Z;
  beam_centre_x : option Z;
  beam_centre_y : option Z;
}.

(** Attribute assignment [self.<field> = v], one function per assigned
    attribute. *)

Definition set_active_params (v : list dict) (s : OAVParameters) : OAVParameters :=
  {|
    zoom_params_file := zoom_params_file s; oav_config_json := oav_config_json s;
    display_config := display_config s; context := context s; global_params := global_params s;
    context_dicts := context_dicts s; active_params := v; exposure := exposure s;
    acquire_period := acquire_period s; gain := gain s;
    canny_edge_upper_threshold := canny_edge_upper_threshold s;
    canny_edge_lower_threshold := canny_edge_lower_threshold s; minimum_height := minimum_height s;
    zoom := zoom s; preprocess := preprocess s; preprocess_K_size := preprocess_K_size s;
    detection_script_filename := detection_script_filename s; close_ksize := close_ksize s;
    min_callback_time := min_callback_time s; direction := direction s;
    max_tip_distance := max_tip_distance s; micronsPerXPixel := micronsPerXPixel s;
    micronsPerYPixel := micronsPerYPixel s; max_tip_distance_pixels := max_tip_distance_pixels s;
    beam_centre_i := beam_centre_i s; beam_centre_j := beam_centre_j s;
    beam_centre_x := beam_centre_x s; beam_centre_y := beam_centre_y s
  |}.

Definition set_exposure (v : option float) (s : OAVParameters) : OAVParameters :=
  {|
    zoom_params_file := zoom_params_file s; oav_config_json := oav_config_json s;
    display_config := display_config s; context := context s; global_params := global_params s;
    context_dicts := context_dicts s; active_params := active_params s; exposure := v;
    acquire_period := acquire_period s; gain := gain s;
    canny_edge_upper_threshold := canny_edge_upper_threshold s;
    canny_edge_lower_threshold := canny_edge_lower_threshold s; minimum_height := minimum_height s;
    zoom := zoom s; preprocess := preprocess s; preprocess_K_size := preprocess_K_size s;
    detection_script_filename := detection_script_filename s; close_ksize := close_ksize s;
    min_callback_time := min_callback_time s; direction := direction s;
    max_tip_distance := max_tip_distance s; micronsPerXPixel := micronsPerXPixel s;
    micronsPerYPixel := micronsPerYPixel s; max_tip_distance_pixels := max_tip_distance_pixels s;
    beam_centre_i := beam_centre_i s; beam_centre_j := beam_centre_j s;
    beam_centre_x := beam_centre_x s; beam_centre_y := beam_centre_y s
  |}.

Definition set_acquire_period (v : option float) (s : OAVParameters) : OAVParameters :=
  {|
    zoom_params_file := zoom_params_file s; oav_config_json := oav_config_json s;
    display_config := display_config s; context := context s; global_params := global_params s;
    context_dicts := context_dicts s; active_params := active_params s; exposure := exposure s;
    acquire_period := v; gain := gain s;
    canny_edge_upper_threshold := canny_edge_upper_threshold s;
    canny_edge_lower_threshold := canny_edge_lower_threshold s; minimum_height := minimum_height s;
    zoom := zoom s; preprocess := preprocess s; preprocess_K_size := preprocess_K_size s;
    detection_script_filename := detection_script_filename s; close_ksize := close_ksize s;
    min_callback_time := min_callback_time s; direction := direction s;
    max_tip_distance := max_tip_distance s; micronsPerXPixel := micronsPerXPixel s;
    micronsPerYPixel := micronsPerYPixel s; max_tip_distance_pixels := max_tip_distance_pixels s;
    beam_centre_i := beam_centre_i s; beam_centre_j := beam_centre_j s;
    beam_centre_x := beam_centre_x s; beam_centre_y := beam_centre_y s
  |}.

Definition set_gain (v : option float) (s : OAVParameters) : OAVParameters :=
  {|
    zoom_params_file := zoom_params_file s; oav_config_json := oav_config_json s;
    display_config := display_config s; context := context s; global_params := global_params s;
    context_dicts := context_dicts s; active_params := active_params s; exposure := exposure s;
    acquire_period := acquire_period s; gain := v;
    canny_edge_upper_threshold := canny_edge_upper_threshold s;
    canny_edge_lower_threshold := canny_edge_lower_threshold s; minimum_height := minimum_height s;
    zoom := zoom s; preprocess := preprocess s; preprocess_K_size := preprocess_K_size s;
    detection_script_filename := detection_script_filename s; close_ksize := close_ksize s;
    min_callback_time := min_callback_time s; direction := direction s;
    max_tip_distance := max_tip_distance s; micronsPerXPixel := micronsPerXPixel s;
    micronsPerYPixel := micronsPerYPixel s; max_tip_distance_pixels := max_tip_distance_pixels s;
    beam_centre_i := beam_centre_i s; beam_centre_j := beam_centre_j s;
    beam_centre_x := beam_centre_x s; beam_centre_y := beam_centre_y s
  |}.

Definition set_canny_edge_upper_threshold (v : option float) (s : OAVParameters) : OAVParameters :=
  {|
    zoom_params_file := zoom_params_file s; oav_config_json := oav_config_json s;
    display_config := display_config s; context := context s; global_params := global_params s;
    context_dicts := context_dicts s; active_params := active_params s; exposure := exposure s;
    acquire_period := acquire_period s; gain := gain s; canny_edge_upper_threshold := v;
    canny_edge_lower_threshold := canny_edge_lower_threshold s; minimum_height := minimum_height s;
    zoom := zoom s; preprocess := preprocess s; preprocess_K_size := preprocess_K_size s;
    detection_script_filename := detection_script_filename s; close_ksize := close_ksize s;
    min_callback_time := min_callback_time s; direction := direction s;
    max_tip_distance := max_tip_distance s; micronsPerXPixel := micronsPerXPixel s;
    micronsPerYPixel := micronsPerYPixel s; max_tip_distance_pixels := max_tip_distance_pixels s;
    beam_centre_i := beam_centre_i s; beam_centre_j := beam_centre_j s;
    beam_centre_x := beam_centre_x s; beam_centre_y := beam_centre_y s
  |}.

Definition set_canny_edge_lower_threshold (v : option float) (s : OAVParameters) : OAVParameters :=
  {|
    zoom_params_file := zoom_params_file s; oav_config_json := oav_config_json s;
    display_config := display_config s; context := context s; global_params := global_params s;
    context_dicts := context_dicts s; active_params := active_params s; exposure := exposure s;
    acquire_period := acquire_period s; gain := gain s;
    canny_edge_upper_threshold := canny_edge_upper_threshold s; canny_edge_lower_threshold := v;
    minimum_height := minimum_height s; zoom := zoom s; preprocess := preprocess s;
    preprocess_K_size := preprocess_K_size s;
    detection_script_filename := detection_script_filename s; close_ksize := close_ksize s;
    min_callback_time := min_callback_time s; direction := direction s;
    max_tip_distance := max_tip_distance s; micronsPerXPixel := micronsPerXPixel s;
    micronsPerYPixel := micronsPerYPixel s; max_tip_distance_pixels := max_tip_distance_pixels s;
    beam_centre_i := beam_centre_i s; beam_centre_j := beam_centre_j s;
    beam_centre_x := beam_centre_x s; beam_centre_y := beam_centre_y s
  |}.

Definition set_minimum_height (v : option Z) (s : OAVParameters) : OAVParameters :=
  {|
    zoom_params_file := zoom_params_file s; oav_config_json := oav_config_json s;
    display_config := display_config s; context := context s; global_params := global_params s;
    context_dicts := context_dicts s; active_params := active_params s; exposure := exposure s;
    acquire_period := acquire_period s; gain := gain s;
    canny_edge_upper_threshold := canny_edge_upper_threshold s;
    canny_edge_lower_threshold := canny_edge_lower_threshold s; minimum_height := v;
    zoom := zoom s; preprocess := preprocess s; preprocess_K_size := preprocess_K_size s;
    detection_script_filename := detection_script_filename s; close_ksize := close_ksize s;
    min_callback_time := min_callback_time s; direction := direction s;
    max_tip_distance := max_tip_distance s; micronsPerXPixel := micronsPerXPixel s;
    micronsPerYPixel := micronsPerYPixel s; max_tip_distance_pixels := max_tip_distance_pixels s;
    beam_centre_i := beam_centre_i s; beam_centre_j := beam_centre_j s;
    beam_centre_x := beam_centre_x s; beam_centre_y := beam_centre_y s
  |}.

Definition set_zoom (v : option float) (s : OAVParameters) : OAVParameters :=
  {|
    zoom_params_file := zoom_params_file s; oav_config_json := oav_config_json s;
    display_config := display_config s; context := context s; global_params := global_params s;
    context_dicts := context_dicts s; active_params := active_params s; exposure := exposure s;
    acquire_period := acquire_period s; gain := gain s;
    canny_edge_upper_threshold := canny_edge_upper_threshold s;
    canny_edge_lower_threshold := canny_edge_lower_threshold s; minimum_height := minimum_height s;
    zoom := v; preprocess := preprocess s; preprocess_K_size := preprocess_K_size s;
    detection_script_filename := detection_script_filename s; close_ksize := close_ksize s;
    min_callback_time := min_callback_time s; direction := direction s;
    max_tip_distance := max_tip_distance s; micronsPerXPixel := micronsPerXPixel s;
    micronsPerYPixel := micronsPerYPixel s; max_tip_distance_pixels := max_tip_distance_pixels s;
    beam_centre_i := beam_centre_i s; beam_centre_j := beam_centre_j s;
    beam_centre_x := beam_centre_x s; beam_centre_y := beam_centre_y s
  |}.

Definition set_preprocess (v : option Z) (s : OAVParameters) : OAVParameters :=
  {|
    zoom_params_file := zoom_params_file s; oav_config_json := oav_config_json s;
    display_config := display_config s; context := context s; global_params := global_params s;
    context_dicts := context_dicts s; active_params := active_params s; exposure := exposure s;
    acquire_period := acquire_period s; gain := gain s;
    canny_edge_upper_threshold := canny_edge_upper_threshold s;
    canny_edge_lower_threshold := canny_edge_lower_threshold s; minimum_height := minimum_height s;
    zoom := zoom s; preprocess := v; preprocess_K_size := preprocess_K_size s;
    detection_script_filename := detection_script_filename s; close_ksize := close_ksize s;
    min_callback_time := min_callback_time s; direction := direction s;
    max_tip_distance := max_tip_distance s; micronsPerXPixel := micronsPerXPixel s;
    micronsPerYPixel := micronsPerYPixel s; max_tip_distance_pixels := max_tip_distance_pixels s;
    beam_centre_i := beam_centre_i s; beam_centre_j := beam_centre_j s;
    beam_centre_x := beam_centre_x s; beam_centre_y := beam_centre_y s
  |}.

Definition set_preprocess_K_size (v : option Z) (s : OAVParameters) : OAVParameters :=
  {|
    zoom_params_file := zoom_params_file s; oav_config_json := oav_config_json s;
    display_config := display_config s; context := context s; global_params := global_params s;
    context_dicts := context_dicts s; active_params := active_params s; exposure := exposure s;
    acquire_period := acquire_period s; gain := gain s;
    canny_edge_upper_threshold := canny_edge_upper_threshold s;
    canny_edge_lower_threshold := canny_edge_lower_threshold s; minimum_height := minimum_height s;
    zoom := zoom s; preprocess := preprocess s; preprocess_K_size := v;
    detection_script_filename := detection_script_filename s; close_ksize := close_ksize s;
    min_callback_time := min_callback_time s; direction := direction s;
    max_tip_distance := max_tip_distance s; micronsPerXPixel := micronsPerXPixel s;
    micronsPerYPixel := micronsPerYPixel s; max_tip_distance_pixels := max_tip_distance_pixels s;
    beam_centre_i := beam_centre_i s; beam_centre_j := beam_centre_j s;
    beam_centre_x := beam_centre_x s; beam_centre_y := beam_centre_y s
  |}.

Definition set_detection_script_filename (v : option string) (s : OAVParameters) : OAVParameters :=
  {|
    zoom_params_file := zoom_params_file s; oav_config_json := oav_config_json s;
    display_config := display_config s; context := context s; global_params := global_params s;
    context_dicts := context_dicts s; active_params := active_params s; exposure := exposure s;
    acquire_period := acquire_period s; gain := gain s;
    canny_edge_upper_threshold := canny_edge_upper_threshold s;
    canny_edge_lower_threshold := canny_edge_lower_threshold s; minimum_height := minimum_height s;
    zoom := zoom s; preprocess := preprocess s; preprocess_K_size := preprocess_K_size s;
    detection_script_filename := v; close_ksize := close_ksize s;
    min_callback_time := min_callback_time s; direction := direction s;
    max_tip_distance := max_tip_distance s; micronsPerXPixel := micronsPerXPixel s;
    micronsPerYPixel := micronsPerYPixel s; max_tip_distance_pixels := max_tip_distance_pixels s;
    beam_centre_i := beam_centre_i s; beam_centre_j := beam_centre_j s;
    beam_centre_x := beam_centre_x s; beam_centre_y := beam_centre_y s
  |}.

Definition set_close_ksize (v : option Z) (s : OAVParameters) : OAVParameters :=
  {|
    zoom_params_file := zoom_params_file s; oav_config_json := oav_config_json s;
    display_config := display_config s; context := context s; global_params := global_params s;
    context_dicts := context_dicts s; active_params := active_params s; exposure := exposure s;
    acquire_period := acquire_period s; gain := gain s;
    canny_edge_upper_threshold := canny_edge_upper_threshold s;
    canny_edge_lower_threshold := canny_edge_lower_threshold s; minimum_height := minimum_height s;
    zoom := zoom s; preprocess := preprocess s; preprocess_K_size := preprocess_K_size s;
    detection_script_filename := detection_script_filename s; close_ksize := v;
    min_callback_time := min_callback_time s; direction := direction s;
    max_tip_distance := max_tip_distance s; micronsPerXPixel := micronsPerXPixel s;
    micronsPerYPixel := micronsPerYPixel s; max_tip_distance_pixels := max_tip_distance_pixels s;
    beam_centre_i := beam_centre_i s; beam_centre_j := beam_centre_j s;
    beam_centre_x := beam_centre_x s; beam_centre_y := beam_centre_y s
  |}.

Definition set_min_callback_time (v : option float) (s : OAVParameters) : OAVParameters :=
  {|
    zoom_params_file := zoom_params_file s; oav_config_json := oav_config_json s;
    display_config := display_config s; context := context s; global_params := global_params s;
    context_dicts := context_dicts s; active_params := active_params s; exposure := exposure s;
    acquire_period := acquire_period s; gain := gain s;
    canny_edge_upper_threshold := canny_edge_upper_threshold s;
    canny_edge_lower_threshold := canny_edge_lower_threshold s; minimum_height := minimum_height s;
    zoom := zoom s; preprocess := preprocess s; preprocess_K_size := preprocess_K_size s;
    detection_script_filename := detection_script_filename s; close_ksize := close_ksize s;
    min_callback_time := v; direction := direction s; max_tip_distance := max_tip_distance s;
    micronsPerXPixel := micronsPerXPixel s; micronsPerYPixel := micronsPerYPixel s;
    max_tip_distance_pixels := max_tip_distance_pixels s; beam_centre_i := beam_centre_i s;
    beam_centre_j := beam_centre_j s; beam_centre_x := beam_centre_x s;
    beam_centre_y := beam_centre_y s
  |}.

Definition set_direction (v : option Z) (s : OAVParameters) : OAVParameters :=
  {|
    zoom_params_file := zoom_params_file s; oav_config_json := oav_config_json s;
    display_config := display_config s; context := context s; global_params := global_params s;
    context_dicts := context_dicts s; active_params := active_params s; exposure := exposure s;
    acquire_period := acquire_period s; gain := gain s;
    canny_edge_upper_threshold := canny_edge_upper_threshold s;
    canny_edge_lower_threshold := canny_edge_lower_threshold s; minimum_height := minimum_height s;
    zoom := zoom s; preprocess := preprocess s; preprocess_K_size := preprocess_K_size s;
    detection_script_filename := detection_script_filename s; close_ksize := close_ksize s;
    min_callback_time := min_callback_time s; direction := v;
    max_tip_distance := max_tip_distance s; micronsPerXPixel := micronsPerXPixel s;
    micronsPerYPixel := micronsPerYPixel s; max_tip_distance_pixels := max_tip_distance_pixels s;
    beam_centre_i := beam_centre_i s; beam_centre_j := beam_centre_j s;
    beam_centre_x := beam_centre_x s; beam_centre_y := beam_centre_y s
  |}.

Definition set_max_tip_distance (v : option float) (s : OAVParameters) : OAVParameters :=
  {|
    zoom_params_file := zoom_params_file s; oav_config_json := oav_config_json s;
    display_config := display_config s; context := context s; global_params := global_params s;
    context_dicts := context_dicts s; active_params := active_params s; exposure := exposure s;
    acquire_period := acquire_period s; gain := gain s;
    canny_edge_upper_threshold := canny_edge_upper_threshold s;
    canny_edge_lower_threshold := canny_edge_lower_threshold s; minimum_height := minimum_height s;
    zoom := zoom s; preprocess := preprocess s; preprocess_K_size := preprocess_K_size s;
    detection_script_filename := detection_script_filename s; close_ksize := close_ksize s;
    min_callback_time := min_callback_time s; direction := direction s; max_tip_distance := v;
    micronsPerXPixel := micronsPerXPixel s; micronsPerYPixel := micronsPerYPixel s;
    max_tip_distance_pixels := max_tip_distance_pixels s; beam_centre_i := beam_centre_i s;
    beam_centre_j := beam_centre_j s; beam_centre_x := beam_centre_x s;
    beam_centre_y := beam_centre_y s
  |}.

Definition set_micronsPerXPixel (v : option float) (s : OAVParameters) : OAVParameters :=
  {|
    zoom_params_file := zoom_params_file s; oav_config_json := oav_config_json s;
    display_config := display_config s; context := context s; global_params := global_params s;
    context_dicts := context_dicts s; active_params := active_params s; exposure := exposure s;
    acquire_period := acquire_period s; gain := gain s;
    canny_edge_upper_threshold := canny_edge_upper_threshold s;
    canny_edge_lower_threshold := canny_edge_lower_threshold s; minimum_height := minimum_height s;
    zoom := zoom s; preprocess := preprocess s; preprocess_K_size := preprocess_K_size s;
    detection_script_filename := detection_script_filename s; close_ksize := close_ksize s;
    min_callback_time := min_callback_time s; direction := direction s;
    max_tip_distance := max_tip_distance s; micronsPerXPixel := v;
    micronsPerYPixel := micronsPerYPixel s; max_tip_distance_pixels := max_tip_distance_pixels s;
    beam_centre_i := beam_centre_i s; beam_centre_j := beam_centre_j s;
    beam_centre_x := beam_centre_x s; beam_centre_y := beam_centre_y s
  |}.

Definition set_micronsPerYPixel (v : option float) (s : OAVParameters) : OAVParameters :=
  {|
    zoom_params_file := zoom_params_file s; oav_config_json := oav_config_json s;
    display_config := display_config s; context := context s; global_params := global_params s;
    context_dicts := context_dicts s; active_params := active_params s; exposure := exposure s;
    acquire_period := acquire_period s; gain := gain s;
    canny_edge_upper_threshold := canny_edge_upper_threshold s;
    canny_edge_lower_threshold := canny_edge_lower_threshold s; minimum_height := minimum_height s;
    zoom := zoom s; preprocess := preprocess s; preprocess_K_size := preprocess_K_size s;
    detection_script_filename := detection_script_filename s; close_ksize := close_ksize s;
    min_callback_time := min_callback_time s; direction := direction s;
    max_tip_distance := max_tip_distance s; micronsPerXPixel := micronsPerXPixel s;
    micronsPerYPixel := v; max_tip_distance_pixels := max_tip_distance_pixels s;
    beam_centre_i := beam_centre_i s; beam_centre_j := beam_centre_j s;
    beam_centre_x := beam_centre_x s; beam_centre_y := beam_centre_y s
  |}.

Definition set_max_tip_distance_pixels (v : option float) (s : OAVParameters) : OAVParameters :=
  {|
    zoom_params_file := zoom_params_file s; oav_config_json := oav_config_json s;
    display_config := display_config s; context := context s; global_params := global_params s;
    context_dicts := context_dicts s; active_params := active_params s; exposure := exposure s;
    acquire_period := acquire_period s; gain := gain s;
    canny_edge_upper_threshold := canny_edge_upper_threshold s;
    canny_edge_lower_threshold := canny_edge_lower_threshold s; minimum_height := minimum_height s;
    zoom := zoom s; preprocess := preprocess s; preprocess_K_size := preprocess_K_size s;
    detection_script_filename := detection_script_filename s; close_ksize := close_ksize s;
    min_callback_time := min_callback_time s; direction := direction s;
    max_tip_distance := max_tip_distance s; micronsPerXPixel := micronsPerXPixel s;
    micronsPerYPixel := micronsPerYPixel s; max_tip_distance_pixels := v;
    beam_centre_i := beam_centre_i s; beam_centre_j := beam_centre_j s;
    beam_centre_x := beam_centre_x s; beam_centre_y := beam_centre_y s
  |}.

Definition set_beam_centre_i (v : option Z) (s : OAVParameters) : OAVParameters :=
  {|
    zoom_params_file := zoom_params_file s; oav_config_json := oav_config_json s;
    display_config := display_config s; context := context s; global_params := global_params s;
    context_dicts := context_dicts s; active_params := active_params s; exposure := exposure s;
    acquire_period := acquire_period s; gain := gain s;
    canny_edge_upper_threshold := canny_edge_upper_threshold s;
    canny_edge_lower_threshold := canny_edge_lower_threshold s; minimum_height := minimum_height s;
    zoom := zoom s; preprocess := preprocess s; preprocess_K_size := preprocess_K_size s;
    detection_script_filename := detection_script_filename s; close_ksize := close_ksize s;
    min_callback_time := min_callback_time s; direction := direction s;
    max_tip_distance := max_tip_distance s; micronsPerXPixel := micronsPerXPixel s;
    micronsPerYPixel := micronsPerYPixel s; max_tip_distance_pixels := max_tip_distance_pixels s;
    beam_centre_i := v; beam_centre_j := beam_centre_j s; beam_centre_x := beam_centre_x s;
    beam_centre_y := beam_centre_y s
  |}.

Definition set_beam_centre_j (v : option Z) (s : OAVParameters) : OAVParameters :=
  {|
    zoom_params_file := zoom_params_file s; oav_config_json := oav_config_json s;
    display_config := display_config s; context := context s; global_params := global_params s;
    context_dicts := context_dicts s; active_params := active_params s; exposure := exposure s;
    acquire_period := acquire_period s; gain := gain s;
    canny_edge_upper_threshold := canny_edge_upper_threshold s;
    canny_edge_lower_threshold := canny_edge_lower_threshold s; minimum_height := minimum_height s;
    zoom := zoom s; preprocess := preprocess s; preprocess_K_size := preprocess_K_size s;
    detection_script_filename := detection_script_filename s; close_ksize := close_ksize s;
    min_callback_time := min_callback_time s; direction := direction s;
    max_tip_distance := max_tip_distance s; micronsPerXPixel := micronsPerXPixel s;
    micronsPerYPixel := micronsPerYPixel s; max_tip_distance_pixels := max_tip_distance_pixels s;
    beam_centre_i := beam_centre_i s; beam_centre_j := v; beam_centre_x := beam_centre_x s;
    beam_centre_y := beam_centre_y s
  |}.

Definition set_beam_centre_x (v : option Z) (s : OAVParameters) : OAVParameters :=
  {|
    zoom_params_file := zoom_params_file s; oav_config_json := oav_config_json s;
    display_config := display_config s; context := context s; global_params := global_params s;
    context_dicts := context_dicts s; active_params := active_params s; exposure := exposure s;
    acquire_period := acquire_period s; gain := gain s;
    canny_edge_upper_threshold := canny_edge_upper_threshold s;
    canny_edge_lower_threshold := canny_edge_lower_threshold s; minimum_height := minimum_height s;
    zoom := zoom s; preprocess := preprocess s; preprocess_K_size := preprocess_K_size s;
    detection_script_filename := detection_script_filename s; close_ksize := close_ksize s;
    min_callback_time := min_callback_time s; direction := direction s;
    max_tip_distance := max_tip_distance s; micronsPerXPixel := micronsPerXPixel s;
    micronsPerYPixel := micronsPerYPixel s; max_tip_distance_pixels := max_tip_distance_pixels s;
    beam_centre_i := beam_centre_i s; beam_centre_j := beam_centre_j s; beam_centre_x := v;
    beam_centre_y := beam_centre_y s
  |}.

Definition set_beam_centre_y (v : option Z) (s : OAVParameters) : OAVParameters :=
  {|
    zoom_params_file := zoom_params_file s; oav_config_json := oav_config_json s;
    display_config := display_config s; context := context s; global_params := global_params s;
    context_dicts := context_dicts s; active_params := active_params s; exposure := exposure s;
    acquire_period := acquire_period s; gain := gain s;
    canny_edge_upper_threshold := canny_edge_upper_threshold s;
    canny_edge_lower_threshold := canny_edge_lower_threshold s; minimum_height := minimum_height s;
    zoom := zoom s; preprocess := preprocess s; preprocess_K_size := preprocess_K_size s;
    detection_script_filename := detection_script_filename s; close_ksize := close_ksize s;
    min_callback_time := min_callback_time s; direction := direction s;
    max_tip_distance := max_tip_distance s; micronsPerXPixel := micronsPerXPixel s;
    micronsPerYPixel := micronsPerYPixel s; max_tip_distance_pixels := max_tip_distance_pixels s;
    beam_centre_i := beam_centre_i s; beam_centre_j := beam_centre_j s;
    beam_centre_x := beam_centre_x s; beam_centre_y := v
  |}.

(** ** The state-and-exception monad of the methods

    A method takes [self] and gives an outcome with [self] as the call leaves
    it: an exception does not undo the assignments made before it. *)

Definition M (A : Type) : Type := OAVParameters -> outcome A * OAVParameters.

#[global] Instance M_ret : MRet M := fun A a s => (Ret a, s).
#[global] Instance M_bind : MBind M := fun A B k m s =>
  match m s with
  | (Ret a, s') => k a s'
  | (Raise e, s') => (Raise e, s')
  end.

Definition raise {A} (e : exn) : M A := fun s => (Raise e, s).
Definition lift {A} (o : outcome A) : M A := fun s => (o, s).
Definition gets {A} (f : OAVParameters -> A) : M A := fun s => (Ret (f s), s).
Definition modify (f : OAVParameters -> OAVParameters) : M unit := fun s => (Ret tt, f s).

(** Reading [self.<field>]: [AttributeError] while it is unassigned. *)
Definition getattr {A} (field : OAVParameters -> option A) : M A := fun s =>
  match field s with
  | Some a => (Ret a, s)
  | None => (builtin_error AttributeError, s)
  end.

(** [for x in l: body(x)] *)
Fixpoint for_each {A} (l : list A) (body : A -> M unit) : M unit :=
  match l with
  | [] => mret tt
  | x :: l' => body x ;; for_each l' body
  end.

(** ** [collections.ChainMap], as the list [maps] *)

(** [ChainMap.get(key, default)]: the first map that has the key decides. *)
Fixpoint chain_get (maps : list dict) (key : string) (default : value) : value :=
  match maps with
  | [] => default
  | m :: maps' =>
      match m !! key with
      | Some v => v
      | None => chain_get maps' key default
      end
  end.

(** [l.pop()]: the list without its last element, and that element. *)
Definition list_pop {A} (l : list A) : option (list A * A) :=
  match last l with
  | Some x => Some (removelast l, x)
  | None => None
  end.

(** [ChainMap.new_child(m)] *)
Definition new_child (m : dict) (maps : list dict) : list dict := m :: maps.

(** ** Strings *)

(** [f.readlines()]: the lines of a text, each with its newline. *)
Fixpoint readlines_from (cur : string) (s : string) : list string :=
  match s with
  | EmptyString => match cur with EmptyString => [] | _ => [cur] end
  | String c s' =>
      if Ascii.eqb c "010"%char
      then (cur +:+ String c EmptyString) :: readlines_from EmptyString s'
      else readlines_from (cur +:+ String c EmptyString) s'
  end.
Definition readlines (s : string) : list string := readlines_from EmptyString s.

(** [s.startswith(p)] *)
Definition startswith (s p : string) : bool := String.prefix p s.

(** [s.split(sep)] for a non-empty [sep]: the pieces between the occurrences
    of [sep], found from the left without overlap.  [skip] counts the
    characters of an occurrence still to pass over. *)
Fixpoint split_from (sep : string) (skip : nat) (cur : string) (s : string) : list string :=
  match s with
  | EmptyString => [cur]
  | String c s' =>
      match skip with
      | S k => split_from sep k cur s'
      | O =>
          if String.prefix sep s
          then cur :: split_from sep (String.length sep - 1) EmptyString s'
          else split_from sep O (cur +:+ String c EmptyString) s'
      end
  end.
Definition split (s sep : string) : list string := split_from sep O EmptyString s.

(** [l[i]] *)
Definition list_getitem {A} (l : list A) (i : nat) : outcome A :=
  match l !! i with
  | Some x => Ret x
  | None => builtin_error IndexError
  end.

(** A local variable of a function body: unbound until an assignment is
    executed; once bound it holds an object, which may be Python's [None]. *)
Inductive local (A : Type) :=
| Unbound
| Bound (a : option A).
Arguments Unbound {A}.
Arguments Bound {A} a.

(** ** The class *)

Definition OAV_CONFIG_FILE_DEFAULTS : gmap string string :=
  {[ "zoom_params_file" :=
       "/dls_sw/i03/software/gda/configurations/i03-config/xml/jCameraManZoomLevels.xml";
     "oav_config_json" :=
       "/dls_sw/i03/software/gda/configurations/i03-config/etc/OAVCentring.json";
     "display_config" :=
       "/dls_sw/i03/software/gda_versions/var/display.configuration" ]}.

Section Methods.
Context `{Builtins} (fs : filesystem).

(** [load_json] (static): the top-level entries that are not dicts, and the
    entries that are. *)
Definition load_json (filename : string) : outcome (dict * gmap string dict) :=
  obind (read_file fs filename) (fun text =>
  match json_loads text with
  | None => builtin_error JSONDecodeError
  | Some (VDict raw_params) =>
      let global_params : dict := filter (fun kv => is_dict kv.2 = false) raw_params in
      let context_dicts := omap as_dict raw_params in
      Ret (global_params, context_dicts)
  | Some _ => builtin_error AttributeError
  end).

(** [update_context]: [maps.pop()] takes the last map of the chain away,
    then [new_child] puts the new context in front of what is left. *)
Definition update_context (context : string) : M unit :=
  maps ← gets active_params;
  match list_pop maps with
  | None => lift (builtin_error IndexError)
  | Some (maps', _) =>
      modify (set_active_params maps');;
      dicts ← gets context_dicts;
      match dicts !! context with
      | None => lift (builtin_error KeyError)
      | Some d => modify (set_active_params (new_child d maps'))
      end
  end.

(** The inner function [update] of [update_self_from_current_context]. *)
Definition update {A} (name : string) (param_type : pytype A) (default : value) : M A :=
  maps ← gets active_params;
  let param := chain_get maps name default in
  match call param_type param with
  | Ret v => mret v
  | Raise e =>
      if exn_class_eqb (exn_cls e) AssertionError
      then raise (Exn TypeError (Some
             ("OAV param " +:+ name +:+
              " from the OAV centring params json file has the wrong type, should be "
              +:+ class_repr param_type +:+ " but is <class '" +:+ type_name param +:+ "'>.")))
      else raise e
  end.

Definition update_self_from_current_context : M unit :=
  v ← update "exposure" float_t VNone; modify (set_exposure (Some v));;
  v ← update "acqPeriod" float_t VNone; modify (set_acquire_period (Some v));;
  v ← update "gain" float_t VNone; modify (set_gain (Some v));;
  v ← update "CannyEdgeUpperThreshold" float_t VNone;
  modify (set_canny_edge_upper_threshold (Some v));;
  v ← update "CannyEdgeLowerThreshold" float_t (VFloat 5.0%float);
  modify (set_canny_edge_lower_threshold (Some v));;
  v ← update "minheight" int_t VNone; modify (set_minimum_height (Some v));;
  v ← update "zoom" float_t VNone; modify (set_zoom (Some v));;
  v ← update "preprocess" int_t VNone; modify (set_preprocess (Some v));;
  v ← update "preProcessKSize" int_t VNone; modify (set_preprocess_K_size (Some v));;
  v ← update "filename" str_t VNone; modify (set_detection_script_filename (Some v));;
  v ← update "close_ksize" int_t (VInt 11); modify (set_close_ksize (Some v));;
  v ← update "min_callback_time" float_t (VFloat 0.08%float);
  modify (set_min_callback_time (Some v));;
  v ← update "direction" int_t VNone; modify (set_direction (Some v));;
  v ← update "max_tip_distance" float_t (VInt 300); modify (set_max_tip_distance (Some v)).

(** [et.parse(path).getroot()] *)
Definition et_parse (path : string) : outcome element :=
  obind (read_file fs path) (fun text =>
  match xml_fromstring text with
  | Some root => Ret root
  | None => builtin_error ParseError
  end).

(** [float(node.find(tag).text)] *)
Definition child_float (tag : string) (node : element) : outcome float :=
  match find tag node with
  | None => builtin_error AttributeError
  | Some c => py_float (match text_of c with Some t => VStr t | None => VNone end)
  end.

(** The body of the loop over the [zoomLevel] nodes. *)
Definition load_node (zoom : value) (node : element) : M unit :=
  level ← lift (child_float "level" node);
  if py_float_eq level zoom then
    x ← lift (child_float "micronsPerXPixel" node);
    modify (set_micronsPerXPixel (Some x));;
    y ← lift (child_float "micronsPerYPixel" node);
    modify (set_micronsPerYPixel (Some y))
  else mret tt.

Definition load_microns_per_pixel (zoom_arg : value) : M unit :=
  zoom ← (if truthy zoom_arg then mret zoom_arg
          else z ← getattr zoom; mret (VFloat z));
  path ← gets zoom_params_file;
  root ← lift (et_parse path);
  modify (set_micronsPerXPixel None);;
  modify (set_micronsPerYPixel None);;
  let levels := findall "zoomLevel" root in
  for_each levels (load_node zoom);;
  mx ← gets micronsPerXPixel;
  my ← gets micronsPerYPixel;
  match mx, my with
  | Some x, Some _ =>
      d ← getattr max_tip_distance;
      p ← lift (float_truediv d x);
      modify (set_max_tip_distance_pixels (Some p))
  | _, _ =>
      raise (Exn OAVError_ZoomLevelNotFound (Some
        ("Could not find the micronsPer[X,Y]Pixel parameters in " +:+ path +:+
         " for zoom level " +:+ py_str zoom +:+ ".")))
  end.

(** The test of the loop of [_extract_beam_position]:
    [line.startswith("zoomLevel = " + str(self.zoom))]. *)
Definition is_marker (line : string) (z : float) : bool :=
  startswith line ("zoomLevel = " +:+ py_str (VFloat z)).

(** The loop of [_extract_beam_position] over [range(len(file_lines))]:
    the two locals as the loop leaves them. *)
Fixpoint find_crosshair_lines (file_lines : list string) (range : list nat)
  : M (local string * local string) :=
  match range with
  | [] => mret (Unbound, Unbound)
  | i :: range' =>
      line ← lift (list_getitem file_lines i);
      z ← getattr zoom;
      if is_marker line z then
        crosshair_x_line ← lift (list_getitem file_lines (i + 1));
        crosshair_y_line ← lift (list_getitem file_lines (i + 2));
        mret (Bound (Some crosshair_x_line), Bound (Some crosshair_y_line))
      else find_crosshair_lines file_lines range'
  end.

(** [int(line.split(" = ")[1])] *)
Definition crosshair_value (line : string) : outcome Z :=
  obind (list_getitem (split line " = ") 1) (fun t => py_int (VStr t)).

Definition _extract_beam_position : M unit :=
  path ← gets display_config;
  text ← lift (read_file fs path);
  let file_lines := readlines text in
  '(crosshair_x_line, crosshair_y_line) ←
    find_crosshair_lines file_lines (seq 0 (length file_lines));
  match crosshair_x_line, crosshair_y_line with
  | Unbound, _ => lift (builtin_error UnboundLocalError)
  | Bound None, _ | Bound (Some _), Bound None =>
      z ← getattr zoom;
      raise (Exn OAVError_BeamPositionNotFound (Some
        ("Could not extract beam position at zoom level " +:+ py_str (VFloat z))))
  | Bound (Some _), Unbound => lift (builtin_error UnboundLocalError)
  | Bound (Some x_line), Bound (Some y_line) =>
      v ← lift (crosshair_value x_line); modify (set_beam_centre_i (Some v));;
      v ← lift (crosshair_value y_line); modify (set_beam_centre_j (Some v));;
      v ← lift (crosshair_value x_line); modify (set_beam_centre_x (Some v));;
      v ← lift (crosshair_value y_line); modify (set_beam_centre_y (Some v))
  end.

(** The zoom level a call [load_microns_per_pixel(zoom_arg)] looks up. *)
Definition effective_zoom (zoom_arg : value) (s : OAVParameters) : option value :=
  if truthy zoom_arg then Some zoom_arg else VFloat <$> zoom s.

(** The node's level is equal to the zoom: the test of the loop. *)
Definition matches (zoom : value) (node : element) : bool :=
  match child_float "level" node with
  | Ret level => py_float_eq level zoom
  | Raise _ => false
  end.

Definition is_ret {A} (o : outcome A) : bool :=
  match o with Ret _ => true | Raise _ => false end.

(** The loop body raises nothing on the node: its level converts, and so
    do its two scales when the level is the zoom. *)
Definition scannable (zoom : value) (node : element) : bool :=
  match child_float "level" node with
  | Ret level =>
      if py_float_eq level zoom
      then is_ret (child_float "micronsPerXPixel" node)
           && is_ret (child_float "micronsPerYPixel" node)
      else true
  | Raise _ => false
  end.

(** The node reads as the calibration entry [level: (x, y)]. *)
Definition calibration_entry (node : element) (level x y : float) : Prop :=
  child_float "level" node = Ret level
  /\ child_float "micronsPerXPixel" node = Ret x
  /\ child_float "micronsPerYPixel" node = Ret y.

(** What the loop of [_extract_beam_position] computes, on the lines from
    the current one on. *)
Fixpoint crosshair_after (z : float) (lines : list string)
  : outcome (local string * local string) :=
  match lines with
  | [] => Ret (Unbound, Unbound)
  | line :: rest =>
      if is_marker line z then
        match rest with
        | x :: y :: _ => Ret (Bound (Some x), Bound (Some y))
        | _ => builtin_error IndexError
        end
      else crosshair_after z rest
  end.

(** The two scales as the loop leaves them: those of the last node it
    assigned from, if any. *)
Definition set_microns (xy : option (float * float)) (s : OAVParameters) : OAVParameters :=
  match xy with
  | Some (x, y) => set_micronsPerYPixel (Some y) (set_micronsPerXPixel (Some x) s)
  | None => s
  end.

(** The scales of the last node of the list whose level is the zoom. *)
Fixpoint last_match (z : value) (nodes : list element) : option (float * float) :=
  match nodes with
  | [] => None
  | n :: ns =>
      match last_match z ns with
      | Some r => Some r
      | None =>
          if matches z n then
            match child_float "micronsPerXPixel" n, child_float "micronsPerYPixel" n with
            | Ret x, Ret y => Some (x, y)
            | _, _ => None
            end
          else None
      end
  end.

Definition calculate_beam_distance (horizontal_pixels vertical_pixels : Z) : M (Z * Z) :=
  i ← getattr beam_centre_i;
  j ← getattr beam_centre_j;
  mret (i - horizontal_pixels, j - vertical_pixels).

(** [OAVParameters(context, zoom_params_file, oav_config_json,
    display_config)]: the object, when [__init__] returns. *)
Definition __init__ (context zoom_params_file oav_config_json display_config : string)
  : outcome OAVParameters :=
  obind (load_json oav_config_json) (fun '(global_params, context_dicts) =>
  match context_dicts !! context with
  | None => builtin_error KeyError
  | Some d =>
      let self :=
        {| zoom_params_file := zoom_params_file; oav_config_json := oav_config_json;
           display_config := display_config; context := context;
           global_params := global_params; context_dicts := context_dicts;
           active_params := [d; global_params];
           exposure := None; acquire_period := None; gain := None;
           canny_edge_upper_threshold := None; canny_edge_lower_threshold := None;
           minimum_height := None; zoom := None; preprocess := None;
           preprocess_K_size := None; detection_script_filename := None;
           close_ksize := None; min_callback_time := None; direction := None;
           max_tip_distance := None; micronsPerXPixel := None; micronsPerYPixel := None;
           max_tip_distance_pixels := None; beam_centre_i := None; beam_centre_j := None;
           beam_centre_x := None; beam_centre_y := None |} in
      match (update_self_from_current_context;;
             load_microns_per_pixel VNone;;
             _extract_beam_position) self with
      | (Ret _, self') => Ret self'
      | (Raise e, _) => Raise e
      end
  end).
End Methods.

(** The classes [float], [int] and [str] raise on a value they cannot convert. *)
Definition is_conversion_error (c : exn_class) : bool :=
  match c with
  | TypeError | ValueError | OverflowError => true
  | _ => false
  end.

(** What [__init__] assigns before it calls a method, and what only
    [update_context] assigns afterwards. *)
Definition configuration (s : OAVParameters) :=
  (zoom_params_file s, oav_config_json s, display_config s, context s,
   global_params s, context_dicts s, active_params s).

(** The computation leaves the configuration of [self] as it is. *)
Definition keeps {A} (m : M A) : Prop :=
  forall s, configuration (snd (m s)) = configuration s.

(** ** Fixtures

    Small files and an implementation of [Builtins] by tables: its functions
    agree with CPython on the texts and floats its tables list, which are the
    ones the fixture files hold, and on a text that is no numeral or no
    document (such as [fast], or the lone brace of [truncated.json]), which no
    table lists.  The closed examples are evaluated with it. *)

Module Fixture.
Definition table_get {A} (t : list (string * A)) (k : string) : option A :=
  snd <$> List.find (fun kv => String.eqb (fst kv) k) t.

Definition zoom_level_node (level x y : string) : element :=
  Element "zoomLevel" None
    [ Element "level" (Some level) [];
      Element "micronsPerXPixel" (Some x) [];
      Element "micronsPerYPixel" (Some y) [] ].

Definition zoom_level_xml (level x y : string) : string :=
  "<zoomLevel><level>" +:+ level +:+ "</level><micronsPerXPixel>" +:+ x +:+
  "</micronsPerXPixel><micronsPerYPixel>" +:+ y +:+ "</micronsPerYPixel></zoomLevel>".

Definition zoom_levels_tree (entries : list (string * string * string)) : element :=
  Element "zoomLevels" None (List.map (fun '(l, x, y) => zoom_level_node l x y) entries).

Definition zoom_levels_xml (entries : list (string * string * string)) : string :=
  "<zoomLevels>" +:+
  List.fold_right (fun '(l, x, y) acc => zoom_level_xml l x y +:+ acc) "</zoomLevels>" entries.

(** Calibration tables: levels 1.0 and 5.0; level 5.0 twice; a level 0.0. *)
Definition calibration := [("1.0", "2.5", "2.5"); ("5.0", "0.5", "0.5")].
Definition duplicated :=
  [("5.0", "0.5", "0.5"); ("1.0", "2.5", "2.5"); ("5.0", "0.25", "0.25")].
Definition with_zero := [("0.0", "9.0", "9.0"); ("5.0", "0.5", "0.5")].

(** Beam-position files. *)
Definition display_two_levels : string :=
"zoomLevel = 1.0
crosshairX = 100
crosshairY = 200
zoomLevel = 5.0
crosshairX = 300
crosshairY = 400
".
Definition display_longer_first : string :=
"zoomLevel = 1.05
crosshairX = 100
crosshairY = 200
zoomLevel = 1.0
crosshairX = 300
crosshairY = 400
".
Definition display_other_level : string :=
"zoomLevel = 5.0
crosshairX = 100
crosshairY = 200
".

Definition float_texts : list (string * float) :=
  [ ("0.0", 0.0%float); ("0.25", 0.25%float); ("0.5", 0.5%float); ("1.0", 1.0%float);
    ("2.5", 2.5%float); ("5.0", 5.0%float); ("7.0", 7.0%float); ("9.0", 9.0%float) ].

Definition int_texts : list (string * Z) :=
  [ ("100
", 100); ("200
", 200); ("300
", 300); ("400
", 400) ].

(** A JSON document: global entries and two contexts.  [q] is the double
    quote of JSON. *)
Definition q : string := String (ascii_of_nat 34) EmptyString.

Definition json_text : string :=
  "{" +:+ q +:+ "exposure" +:+ q +:+ ": 0.5, " +:+ q +:+ "acqPeriod" +:+ q +:+ ": 0.25, "
  +:+ q +:+ "gain" +:+ q +:+ ": 1.0, " +:+ q +:+ "CannyEdgeUpperThreshold" +:+ q +:+ ": 20.0, "
  +:+ q +:+ "minheight" +:+ q +:+ ": 70, " +:+ q +:+ "zoom" +:+ q +:+ ": 1.0, "
  +:+ q +:+ "preprocess" +:+ q +:+ ": 8, " +:+ q +:+ "preProcessKSize" +:+ q +:+ ": 21, "
  +:+ q +:+ "filename" +:+ q +:+ ": " +:+ q +:+ "detect.py" +:+ q +:+ ", "
  +:+ q +:+ "direction" +:+ q +:+ ": 0, "
  +:+ q +:+ "loopCentring" +:+ q +:+ ": {" +:+ q +:+ "gain" +:+ q +:+ ": 2.0, "
  +:+ q +:+ "zoom" +:+ q +:+ ": 5.0}, "
  +:+ q +:+ "xrayCentring" +:+ q +:+ ": {" +:+ q +:+ "zoom" +:+ q +:+ ": 1.0}}".

Definition global : dict :=
  {[ "exposure" := VFloat 0.5%float; "acqPeriod" := VFloat 0.25%float;
     "gain" := VFloat 1.0%float; "CannyEdgeUpperThreshold" := VFloat 20.0%float;
     "minheight" := VInt 70; "zoom" := VFloat 1.0%float; "preprocess" := VInt 8;
     "preProcessKSize" := VInt 21; "filename" := VStr "detect.py";
     "direction" := VInt 0 ]}.
Definition loopCentring : dict := {[ "gain" := VFloat 2.0%float; "zoom" := VFloat 5.0%float ]}.
Definition xrayCentring : dict := {[ "zoom" := VFloat 1.0%float ]}.
Definition contexts : gmap string dict :=
  {[ "loopCentring" := loopCentring; "xrayCentring" := xrayCentring ]}.
Definition json_value : value :=
  VDict (<[ "loopCentring" := VDict loopCentring ]>
         (<[ "xrayCentring" := VDict xrayCentring ]> global)).

Definition float_repr (f : float) : string :=
  match List.find (fun kv => PrimFloat.eqb (snd kv) f && Bool.eqb (get_sign (snd kv)) (get_sign f))
          float_texts with
  | Some kv => fst kv
  | None => ""
  end.

#[export] Instance builtins : Builtins := {|
  json_loads text := table_get [(json_text, json_value); ("{}", VDict ∅)] text;
  xml_fromstring text :=
    table_get (List.map (fun t => (zoom_levels_xml t, zoom_levels_tree t))
                 [calibration; duplicated; with_zero]) text;
  float_of_str := table_get float_texts;
  int_of_str := table_get int_texts;
  repr v :=
    match v with
    | VFloat f => float_repr f
    | VNone => "None"
    | VBool b => if b then "True" else "False"
    | _ => ""
    end;
|}.

Definition fs : filesystem := fun path =>
  if String.eqb path "zoom.xml" then Text (zoom_levels_xml calibration)
  else if String.eqb path "duplicated.xml" then Text (zoom_levels_xml duplicated)
  else if String.eqb path "with_zero.xml" then Text (zoom_levels_xml with_zero)
  else if String.eqb path "display.configuration" then Text display_two_levels
  else if String.eqb path "display_longer_first.configuration" then Text display_longer_first
  else if String.eqb path "display_other_level.configuration" then Text display_other_level
  else if String.eqb path "OAVCentring.json" then Text json_text
  else if String.eqb path "truncated.json" then Text "{"
  else if String.eqb path "secret.json" then NoPermission
  else NoSuchFile.

(** An object with the given file paths, chain of maps, stored zoom and tip
    distance; the other late attributes unassigned. *)
Definition object (zoom_params_file display_config : string) (maps : list dict)
    (z d : float) : OAVParameters :=
  {| zoom_params_file := zoom_params_file; oav_config_json := "OAVCentring.json";
     display_config := display_config; context := "loopCentring";
     global_params := global; context_dicts := contexts;
     active_params := maps;
     exposure := None; acquire_period := None; gain := None;
     canny_edge_upper_threshold := None; canny_edge_lower_threshold := None;
     minimum_height := None; zoom := Some z; preprocess := None;
     preprocess_K_size := None; detection_script_filename := None;
     close_ksize := None; min_callback_time := None; direction := None;
     max_tip_distance := Some d; micronsPerXPixel := None; micronsPerYPixel := None;
     max_tip_distance_pixels := None; beam_centre_i := None; beam_centre_j := None;
     beam_centre_x := None; beam_centre_y := None |}.

(** The chain as [__init__] builds it for the context [loopCentring]. *)
Definition loaded (zoom_params_file display_config : string) (z : float) : OAVParameters :=
  object zoom_params_file display_config [loopCentring; global] z 300%float.

(** [OAVParameters("loopCentring", "zoom.xml", "OAVCentring.json",
    "display.configuration")] *)
Definition constructed : outcome OAVParameters :=
  __init__ fs "loopCentring" "zoom.xml" "OAVCentring.json" "display.configuration".

(** The object that call returns. *)
Definition constructed_object : OAVParameters :=
  {| zoom_params_file := "zoom.xml"; oav_config_json := "OAVCentring.json";
     display_config := "display.configuration"; context := "loopCentring";
     global_params := global; context_dicts := contexts;
     active_params := [loopCentring; global];
     exposure := Some 0.5%float; acquire_period := Some 0.25%float; gain := Some 2.0%float;
     canny_edge_upper_threshold := Some 20.0%float;
     canny_edge_lower_threshold := Some 5.0%float;
     minimum_height := Some 70; zoom := Some 5.0%float; preprocess := Some 8;
     preprocess_K_size := Some 21; detection_script_filename := Some "detect.py";
     close_ksize := Some 11; min_callback_time := Some 0.08%float; direction := Some 0;
     max_tip_distance := Some 300%float; micronsPerXPixel := Some 0.5%float;
     micronsPerYPixel := Some 0.5%float; max_tip_distance_pixels := Some 600%float;
     beam_centre_i := Some 300; beam_centre_j := Some 400;
     beam_centre_x := Some 300; beam_centre_y := Some 400 |}.
End Fixture.

(** ** Groups of attributes, and computations that leave them alone *)

(** The fourteen attributes [update_self_from_current_context] assigns. *)
Definition parameters (s : OAVParameters) :=
  (exposure s, acquire_period s, gain s, canny_edge_upper_threshold s,
   canny_edge_lower_threshold s, minimum_height s, zoom s, preprocess s,
   preprocess_K_size s, detection_script_filename s, close_ksize s,
   min_callback_time s, direction s, max_tip_distance s).

(** The three attributes [load_microns_per_pixel] assigns. *)
Definition scale (s : OAVParameters) :=
  (micronsPerXPixel s, micronsPerYPixel s, max_tip_distance_pixels s).

(** The four attributes [_extract_beam_position] assigns. *)
Definition beam_centre (s : OAVParameters) :=
  (beam_centre_i s, beam_centre_j s, beam_centre_x s, beam_centre_y s).

(** The computation leaves the view [f] of [self] as it is, whatever its
    outcome. *)
Definition preserves {A B} (f : OAVParameters -> B) (m : M A) : Prop :=
  forall s, f (snd (m s)) = f s.

(** The attribute holds the value the conversion returned. *)
Definition assigned {A} (attribute : option A) (conversion : outcome A) : Prop :=
  exists a, attribute = Some a /\ conversion = Ret a.

(** The names [update_self_from_current_context] looks up with no default,
    for a class that does not accept [None]. *)
Definition required_parameters : list string :=
  ["exposure"; "acqPeriod"; "gain"; "CannyEdgeUpperThreshold"; "minheight"; "zoom";
   "preprocess"; "preProcessKSize"; "direction"].

(** No map of the chain has the key. *)
Definition absent (key : string) (maps : list dict) : Prop :=
  Forall (fun m : dict => m !! key = None) maps.

(** The fourteen assignments of [update_self_from_current_context], in its
    order. *)
Definition assign_parameters
    (exposure' acquire_period' gain' upper lower : float) (minimum_height' : Z)
    (zoom' : float) (preprocess' preprocess_K_size' : Z) (filename : string)
    (close_ksize' : Z) (min_callback_time' : float) (direction' : Z)
    (max_tip_distance' : float) (s : OAVParameters) : OAVParameters :=
  set_max_tip_distance (Some max_tip_distance')
    (set_direction (Some direction')
      (set_min_callback_time (Some min_callback_time')
        (set_close_ksize (Some close_ksize')
          (set_detection_script_filename (Some filename)
            (set_preprocess_K_size (Some preprocess_K_size')
              (set_preprocess (Some preprocess')
                (set_zoom (Some zoom')
                  (set_minimum_height (Some minimum_height')
                    (set_canny_edge_lower_threshold (Some lower)
                      (set_canny_edge_upper_threshold (Some upper)
                        (set_gain (Some gain')
                          (set_acquire_period (Some acquire_period')
                            (set_exposure (Some exposure') s))))))))))))).

(** ** More fixtures: files at the edges

    The tables of [Fixture], with two more calibration files (a scale of
    zero; a [zoomLevel] node with no [level] child) and two more
    beam-position files (the marker on the last but one line; a second
    crosshair line that is no integer). *)

Module EdgeFixture.
Definition zero_scale := [("5.0", "0.0", "0.0")].

Definition no_level_tree : element :=
  Element "zoomLevels" None
    [ Fixture.zoom_level_node "5.0" "0.5" "0.5";
      Element "zoomLevel" None [ Element "micronsPerXPixel" (Some "0.5") [] ] ].

Definition no_level_xml : string :=
  "<zoomLevels>" +:+ Fixture.zoom_level_xml "5.0" "0.5" "0.5" +:+
  "<zoomLevel><micronsPerXPixel>0.5</micronsPerXPixel></zoomLevel></zoomLevels>".

Definition display_marker_near_end : string :=
"zoomLevel = 1.0
crosshairX = 100
".
Definition display_malformed : string :=
"zoomLevel = 1.0
crosshairX = 100
crosshairY = abc
".

Definition builtins : Builtins := {|
  json_loads := @json_loads Fixture.builtins;
  xml_fromstring text :=
    Fixture.table_get
      [ (Fixture.zoom_levels_xml zero_scale, Fixture.zoom_levels_tree zero_scale);
        (no_level_xml, no_level_tree) ] text;
  float_of_str := @float_of_str Fixture.builtins;
  int_of_str := @int_of_str Fixture.builtins;
  repr := @repr Fixture.builtins;
|}.

Definition fs : filesystem := fun path =>
  if String.eqb path "zero_scale.xml" then Text (Fixture.zoom_levels_xml zero_scale)
  else if String.eqb path "no_level.xml" then Text no_level_xml
  else if String.eqb path "display_marker_near_end.configuration"
  then Text display_marker_near_end
  else if String.eqb path "display_malformed.configuration" then Text display_malformed
  else NoSuchFile.
End EdgeFixture.

(** * Properties *)

(** ** The helpers on small inputs *)

Example float_of_Z_rounds :
  float_of_Z 300 = Ret 300%float
  /\ float_of_Z (2 ^ 53 + 1) = Ret 9007199254740992%float
  /\ float_of_Z (2 ^ 53 + 3) = Ret 9007199254740996%float
  /\ raises (float_of_Z (2 ^ 1024)) OverflowError = true.
Proof. repeat split; vm_compute; reflexivity. Qed.

Example Z_of_float_truncates :
  Z_of_float 2.75%float = Ret 2 /\ Z_of_float (-2.75)%float = Ret (-2)
  /\ raises (Z_of_float infinity) OverflowError = true
  /\ raises (Z_of_float nan) ValueError = true.
Proof. repeat split; vm_compute; reflexivity. Qed.

Example float_eq_Z_is_exact :
  float_eq_Z 5%float 5 = true /\ float_eq_Z 2.5%float 2 = false
  /\ float_eq_Z (-0)%float 0 = true /\ float_eq_Z 9007199254740992%float (2 ^ 53 + 1) = false.
Proof. repeat split; vm_compute; reflexivity. Qed.

Example readlines_keeps_newlines :
  readlines "a = 1
b
c" = ["a = 1
"; "b
"; "c"]
  /\ readlines "" = []
  /\ readlines "x
" = ["x
"].
Proof. repeat split; vm_compute; reflexivity. Qed.

Example split_on_separator :
  split "x = 100" " = " = ["x"; "100"]
  /\ split "abc" " = " = ["abc"]
  /\ split " =  = " " = " = [""; ""; ""]
  /\ split "a = b = " " = " = ["a"; "b"; ""].
Proof. repeat split; vm_compute; reflexivity. Qed.

Example findall_is_in_document_order :
  findall "b"
    (Element "a" None
       [Element "b" (Some "1") [Element "b" (Some "2") []]; Element "c" None [];
        Element "b" (Some "3") []])
  = [Element "b" (Some "1") [Element "b" (Some "2") []];
     Element "b" (Some "2") []; Element "b" (Some "3") []].
Proof. reflexivity. Qed.

(** ** Running a computation: one step at a time *)

Lemma bind_ret {A B} (m : M A) (k : A -> M B) s a s' :
  m s = (Ret a, s') -> (m ≫= k) s = k a s'.
Proof. intros E. unfold mbind, M_bind. by rewrite E. Qed.

Lemma bind_raise {A B} (m : M A) (k : A -> M B) s e s' :
  m s = (Raise e, s') -> (m ≫= k) s = (Raise e, s').
Proof. intros E. unfold mbind, M_bind. by rewrite E. Qed.

Lemma bind_inv {A B} (m : M A) (k : A -> M B) s b s' :
  (m ≫= k) s = (Ret b, s') ->
  exists a s1, m s = (Ret a, s1) /\ k a s1 = (Ret b, s').
Proof.
  unfold mbind, M_bind. destruct (m s) as [[a|e] s1]; [eauto | discriminate].
Qed.

Ltac run :=
  unfold mbind, M_bind, mret, M_ret, raise, lift, gets, modify, getattr; simpl.

(** ** Methods that keep the configuration *)

Lemma keeps_ret {A} (a : A) : keeps (mret a).
Proof. done. Qed.

Lemma keeps_bind {A B} (m : M A) (k : A -> M B) :
  keeps m -> (forall a, keeps (k a)) -> keeps (m ≫= k).
Proof.
  intros Hm Hk s. unfold mbind, M_bind. specialize (Hm s).
  destruct (m s) as [[a|e] s1]; simpl in *; [| done]. by rewrite Hk.
Qed.

Lemma keeps_lift {A} (o : outcome A) : keeps (lift o).
Proof. done. Qed.

Lemma keeps_raise {A} e : keeps (@raise A e).
Proof. done. Qed.

Lemma keeps_gets {A} (f : OAVParameters -> A) : keeps (gets f).
Proof. done. Qed.

Lemma keeps_getattr {A} (f : OAVParameters -> option A) : keeps (getattr f).
Proof. intros s. unfold getattr. by destruct (f s). Qed.

Lemma keeps_modify f :
  (forall s, configuration (f s) = configuration s) -> keeps (modify f).
Proof. done. Qed.

Lemma keeps_for_each {A} (l : list A) body :
  (forall a, keeps (body a)) -> keeps (for_each l body).
Proof. intros Hb. induction l; simpl; [apply keeps_ret | by apply keeps_bind]. Qed.

Create HintDb keeps.
#[export] Hint Resolve keeps_ret keeps_lift keeps_raise keeps_gets keeps_getattr
  keeps_for_each : keeps.
#[export] Hint Extern 1 (keeps (modify _)) => apply keeps_modify; reflexivity : keeps.
#[export] Hint Extern 2 (keeps (_ ≫= _)) => apply keeps_bind; [| intros ?] : keeps.
#[export] Hint Extern 3 (keeps (match ?x with _ => _ end)) => destruct x : keeps.

Ltac keeps_step :=
  first [ apply keeps_bind; [| intros ?]
        | apply keeps_modify; reflexivity
        | solve [auto with keeps]
        | case_match ].

Section Properties.
Context `{Builtins} (fs : filesystem).

Lemma calculate_beam_distance_run s bx by_ h v :
  beam_centre_i s = Some bx -> beam_centre_j s = Some by_ ->
  calculate_beam_distance h v s = (Ret (bx - h, by_ - v), s).
Proof. intros Hi Hj. unfold calculate_beam_distance. run. by rewrite Hi, Hj. Qed.


(** *** The loop over the [zoomLevel] nodes *)

Lemma load_node_scannable z n s :
  scannable z n = true ->
  load_node z n s = (Ret tt, set_microns (last_match z [n]) s).
Proof.
  unfold scannable, load_node, matches. simpl. unfold matches. run.
  destruct (child_float "level" n) as [l|]; [| discriminate].
  destruct (py_float_eq l z); [| reflexivity].
  destruct (child_float "micronsPerXPixel" n) as [x|]; [| discriminate].
  destruct (child_float "micronsPerYPixel" n) as [y|]; [| discriminate].
  reflexivity.
Qed.

Lemma set_microns_twice a b s :
  set_microns b (set_microns a s)
  = set_microns (match b with Some r => Some r | None => a end) s.
Proof. destruct a as [[]|], b as [[]|]; reflexivity. Qed.

Lemma for_each_load_node z nodes s :
  Forall (fun n => scannable z n = true) nodes ->
  for_each nodes (load_node z) s = (Ret tt, set_microns (last_match z nodes) s).
Proof.
  intros Hall. revert s. induction Hall as [| n ns Hn _ IH]; intros s; [reflexivity |].
  cbn [for_each]. erewrite bind_ret by (apply load_node_scannable, Hn).
  rewrite IH, set_microns_twice. reflexivity.
Qed.

Lemma last_match_none z nodes :
  Forall (fun n => matches z n = false) nodes -> last_match z nodes = None.
Proof. induction 1 as [| n ns Hn _ IH]; cbn [last_match]; [done |]. by rewrite IH, Hn. Qed.

Lemma last_match_last z pre n post x y :
  matches z n = true ->
  child_float "micronsPerXPixel" n = Ret x ->
  child_float "micronsPerYPixel" n = Ret y ->
  Forall (fun m => matches z m = false) post ->
  last_match z (pre ++ n :: post) = Some (x, y).
Proof.
  intros Hm Hx Hy Hpost. induction pre as [| p pre IH]; cbn [app last_match].
  - by rewrite (last_match_none _ _ Hpost), Hm, Hx, Hy.
  - by rewrite IH.
Qed.

(** The call up to the loop, on a file that parses. *)
Lemma load_microns_per_pixel_run zoom_arg z root s :
  effective_zoom zoom_arg s = Some z ->
  et_parse fs (zoom_params_file s) = Ret root ->
  Forall (fun n => scannable z n = true) (findall "zoomLevel" root) ->
  load_microns_per_pixel fs zoom_arg s =
    let s1 := set_micronsPerYPixel None (set_micronsPerXPixel None s) in
    match last_match z (findall "zoomLevel" root) with
    | Some (x, y) =>
        let s2 := set_microns (Some (x, y)) s1 in
        match max_tip_distance s with
        | Some d =>
            if PrimFloat.eqb x 0%float then (builtin_error ZeroDivisionError, s2)
            else (Ret tt, set_max_tip_distance_pixels (Some (d / x)%float) s2)
        | None => (builtin_error AttributeError, s2)
        end
    | None =>
        (Raise (Exn OAVError_ZoomLevelNotFound (Some
           ("Could not find the micronsPer[X,Y]Pixel parameters in " +:+ zoom_params_file s
            +:+ " for zoom level " +:+ py_str z +:+ "."))), s1)
    end.
Proof.
  intros Hz Hroot Hscan. unfold load_microns_per_pixel.
  assert (Hzoom : (if truthy zoom_arg then mret zoom_arg
                   else getattr zoom ≫= λ z0, mret (VFloat z0)) s = (Ret z, s)).
  { unfold effective_zoom in Hz. destruct (truthy zoom_arg); run.
    - by simplify_eq.
    - destruct (zoom s); simpl in Hz; [| discriminate]. by simplify_eq. }
  erewrite bind_ret by exact Hzoom.
  run. rewrite Hroot.
  rewrite (for_each_load_node _ _ _ Hscan).
  destruct (last_match z (findall "zoomLevel" root)) as [[x y]|]; simpl; [| reflexivity].
  destruct (max_tip_distance s); [| reflexivity].
  unfold float_truediv. by destruct (PrimFloat.eqb x 0).
Qed.

(** *** [update] and the chain of maps *)

Lemma py_float_raises v e :
  py_float v = Raise e -> exn_msg e = None /\ is_conversion_error (exn_cls e) = true.
Proof.
  destruct v as [| b | n | f | t | l | d]; simpl; unfold float_of_Z, builtin_error;
    repeat case_match; intros; by simplify_eq.
Qed.

Lemma py_int_raises v e :
  py_int v = Raise e -> exn_msg e = None /\ is_conversion_error (exn_cls e) = true.
Proof.
  destruct v as [| b | n | f | t | l | d]; simpl; unfold Z_of_float, builtin_error;
    repeat case_match; intros; by simplify_eq.
Qed.

(** The handler of [update] catches nothing that [float] raises. *)
Lemma update_float name default s :
  update name float_t default s
  = (py_float (chain_get (active_params s) name default), s).
Proof.
  unfold update. run.
  destruct (py_float _) as [v|e] eqn:E; [reflexivity |].
  apply py_float_raises in E as [_ E]. by destruct (exn_cls e).
Qed.

Lemma update_int name default s :
  update name int_t default s
  = (py_int (chain_get (active_params s) name default), s).
Proof.
  unfold update. run.
  destruct (py_int _) as [v|e] eqn:E; [reflexivity |].
  apply py_int_raises in E as [_ E]. by destruct (exn_cls e).
Qed.

Lemma update_str name default s :
  update name str_t default s
  = (Ret (py_str (chain_get (active_params s) name default)), s).
Proof. reflexivity. Qed.

Lemma list_pop_snoc {A} (l : list A) x : list_pop (l ++ [x]) = Some (l, x).
Proof. unfold list_pop. by rewrite last_snoc, removelast_last. Qed.

(** [update_context] on a chain [maps ++ [g]]: [g] goes, the rest stays
    behind the new context. *)
Lemma update_context_run context d maps g s :
  active_params s = maps ++ [g] ->
  context_dicts s !! context = Some d ->
  update_context context s = (Ret tt, set_active_params (d :: maps) s).
Proof.
  intros Hmaps Hd. unfold update_context. run.
  rewrite Hmaps, list_pop_snoc. simpl. by rewrite Hd.
Qed.

Lemma chain_get_two (c g : dict) key dflt :
  chain_get [c; g] key dflt = default (default dflt (g !! key)) (c !! key).
Proof. simpl. by destruct (c !! key), (g !! key). Qed.

(** *** The beam-position file *)

Lemma startswith_iff s p : startswith s p = true <-> exists rest, s = p +:+ rest.
Proof.
  unfold startswith. revert s. induction p as [| c p IH]; intros s.
  - destruct s; simpl; (split; [intros _; by eexists | done]).
  - destruct s as [| c' s]; simpl; [split; [done | intros [r Hr]; discriminate] |].
    destruct (Ascii.ascii_dec c c') as [-> | Hne].
    + rewrite IH. split; intros [r Hr]; exists r; [by rewrite Hr | by injection Hr].
    + split; [done | intros [r Hr]; by injection Hr as -> _].
Qed.

Lemma is_marker_iff line z :
  is_marker line z = true
  <-> exists rest, line = "zoomLevel = " +:+ repr (VFloat z) +:+ rest.
Proof.
  unfold is_marker. rewrite startswith_iff. simpl py_str.
  split; intros [r Hr]; exists r; rewrite Hr; simpl; reflexivity.
Qed.

Lemma find_crosshair_lines_run z done todo s :
  zoom s = Some z ->
  find_crosshair_lines (done ++ todo) (seq (length done) (length todo)) s
  = (crosshair_after z todo, s).
Proof.
  intros Hz. revert done. induction todo as [| line rest IH]; intros done; [reflexivity |].
  cbn [length seq find_crosshair_lines crosshair_after]. run.
  unfold list_getitem. rewrite list_lookup_middle by done. rewrite Hz.
  destruct (is_marker line z).
  - rewrite !lookup_app_r by lia.
    replace (length done + 1 - length done)%nat with 1%nat by lia.
    replace (length done + 2 - length done)%nat with 2%nat by lia.
    destruct rest as [| x [| y rest]]; reflexivity.
  - specialize (IH (done ++ [line])).
    rewrite <- app_assoc, length_app in IH. simpl in IH.
    by rewrite Nat.add_1_r in IH.
Qed.

Lemma crosshair_after_no_marker z lines :
  Forall (fun l => is_marker l z = false) lines ->
  crosshair_after z lines = Ret (Unbound, Unbound).
Proof. induction 1 as [| l ls Hl _ IH]; simpl; [done |]. by rewrite Hl. Qed.

Lemma crosshair_after_first z pre line x y rest :
  Forall (fun l => is_marker l z = false) pre ->
  is_marker line z = true ->
  crosshair_after z (pre ++ line :: x :: y :: rest)
  = Ret (Bound (Some x), Bound (Some y)).
Proof. induction 1 as [| l ls Hl _ IH]; intros Hm; simpl; [by rewrite Hm |]. rewrite Hl. auto. Qed.

(** Whatever the loop binds, it binds to lines: never to [None]. *)
Lemma find_crosshair_lines_shape lines range s r s' :
  find_crosshair_lines lines range s = (Ret r, s') ->
  r = (Unbound, Unbound) \/ exists x y, r = (Bound (Some x), Bound (Some y)).
Proof.
  revert s. induction range as [| i range IH]; intros s; simpl.
  - run. intros; simplify_eq. by left.
  - run. destruct (list_getitem lines i); [| done].
    destruct (zoom s); [| done]. destruct (is_marker _ _); [| apply IH].
    destruct (list_getitem lines (i + 1)); [| done].
    destruct (list_getitem lines (i + 2)); [| done].
    intros; simplify_eq. right. eauto.
Qed.

Lemma find_crosshair_lines_raises lines range s e s' :
  find_crosshair_lines lines range s = (Raise e, s') ->
  is_oav_error (exn_cls e) = false.
Proof.
  revert s. induction range as [| i range IH]; intros s; simpl.
  - run. done.
  - run. unfold list_getitem, builtin_error.
    destruct (lines !! i); [| intros; by simplify_eq].
    destruct (zoom s); [| intros; by simplify_eq]. destruct (is_marker _ _); [| apply IH].
    destruct (lines !! (i + 1)%nat); [| intros; by simplify_eq].
    destruct (lines !! (i + 2)%nat); [| intros; by simplify_eq].
    done.
Qed.

Lemma crosshair_value_raises line e :
  crosshair_value line = Raise e -> is_oav_error (exn_cls e) = false.
Proof.
  unfold crosshair_value, list_getitem, builtin_error.
  destruct (split line " = " !! 1%nat) as [t|]; cbn [obind]; [| intros; by simplify_eq].
  intros E. apply py_int_raises in E as [_ E]. by destruct (exn_cls e).
Qed.

Lemma find_crosshair_lines_all z lines s :
  zoom s = Some z ->
  find_crosshair_lines lines (seq 0 (length lines)) s = (crosshair_after z lines, s).
Proof. apply (find_crosshair_lines_run z [] lines s). Qed.

Lemma _extract_beam_position_no_marker z text s :
  zoom s = Some z ->
  read_file fs (display_config s) = Ret text ->
  Forall (fun l => is_marker l z = false) (readlines text) ->
  _extract_beam_position fs s = (builtin_error UnboundLocalError, s).
Proof.
  intros Hz Htext Hno. unfold _extract_beam_position.
  unfold mbind, M_bind, gets, lift. rewrite Htext.
  rewrite (find_crosshair_lines_all z _ s Hz).
  by rewrite (crosshair_after_no_marker _ _ Hno).
Qed.

Lemma _extract_beam_position_first_marker z text pre line x y rest a b s :
  zoom s = Some z ->
  read_file fs (display_config s) = Ret text ->
  readlines text = pre ++ line :: x :: y :: rest ->
  Forall (fun l => is_marker l z = false) pre ->
  is_marker line z = true ->
  crosshair_value x = Ret a ->
  crosshair_value y = Ret b ->
  _extract_beam_position fs s
  = (Ret tt, set_beam_centre_y (Some b) (set_beam_centre_x (Some a)
               (set_beam_centre_j (Some b) (set_beam_centre_i (Some a) s)))).
Proof.
  intros Hz Htext Hlines Hpre Hm Ha Hb. unfold _extract_beam_position.
  unfold mbind, M_bind, gets, lift. rewrite Htext.
  rewrite (find_crosshair_lines_all z _ s Hz), Hlines.
  rewrite (crosshair_after_first _ _ _ _ _ _ Hpre Hm). by rewrite Ha, Hb.
Qed.

(** The [raise OAVError_BeamPositionNotFound] of [_extract_beam_position]
    is never reached. *)
Lemma _extract_beam_position_never_typed s :
  raises (fst (_extract_beam_position fs s)) OAVError_BeamPositionNotFound = false.
Proof.
  unfold _extract_beam_position. unfold mbind, M_bind, gets, lift, modify, raise, getattr.
  destruct (read_file fs (display_config s)) as [text|e] eqn:Htext.
  2:{ unfold read_file, builtin_error in Htext. simpl. by repeat case_match; simplify_eq. }
  destruct (find_crosshair_lines _ _ s) as [[[cx cy]|e] s1] eqn:Hfind.
  2:{ apply find_crosshair_lines_raises in Hfind. simpl. by destruct (exn_cls e). }
  apply find_crosshair_lines_shape in Hfind as [E | (x & y & E)]; simplify_eq; [done |].
  destruct (crosshair_value x) as [a|e] eqn:Ha; simpl.
  2:{ apply crosshair_value_raises in Ha. by destruct (exn_cls e). }
  destruct (crosshair_value y) as [b|e] eqn:Hb; simpl; [done |].
  apply crosshair_value_raises in Hb. by destruct (exn_cls e).
Qed.

(** *** [load_json] *)

Lemma load_json_missing filename :
  fs filename = NoSuchFile -> load_json fs filename = builtin_error FileNotFoundError.
Proof. intros E. unfold load_json, read_file. by rewrite E. Qed.

Lemma load_json_no_permission filename :
  fs filename = NoPermission -> load_json fs filename = builtin_error PermissionError.
Proof. intros E. unfold load_json, read_file. by rewrite E. Qed.

Lemma load_json_malformed filename text :
  fs filename = Text text -> json_loads text = None ->
  load_json fs filename = builtin_error JSONDecodeError.
Proof. intros E1 E2. unfold load_json, read_file. rewrite E1. simpl. by rewrite E2. Qed.

Lemma load_json_raises filename e :
  load_json fs filename = Raise e -> exn_msg e = None /\ is_oav_error (exn_cls e) = false.
Proof.
  unfold load_json, read_file, builtin_error.
  destruct (fs filename); simpl; try (intros; by simplify_eq).
  repeat case_match; intros; by simplify_eq.
Qed.

(** *** The object [__init__] returns *)

Lemma keeps_update {A} name (t : pytype A) dflt : keeps (update name t dflt).
Proof. unfold update. repeat keeps_step. Qed.

Lemma keeps_update_self_from_current_context : keeps update_self_from_current_context.
Proof.
  unfold update_self_from_current_context.
  repeat (apply keeps_bind; [first [apply keeps_update | auto with keeps] | intros ?]).
  auto with keeps.
Qed.

Lemma keeps_load_node z n : keeps (load_node z n).
Proof. unfold load_node. repeat keeps_step. Qed.

Lemma keeps_load_microns_per_pixel z : keeps (load_microns_per_pixel fs z).
Proof.
  pose proof keeps_load_node.
  unfold load_microns_per_pixel. repeat keeps_step.
Qed.

Lemma keeps_find_crosshair_lines lines range : keeps (find_crosshair_lines lines range).
Proof. induction range; simpl; repeat keeps_step. Qed.

Lemma keeps__extract_beam_position : keeps (_extract_beam_position fs).
Proof.
  pose proof keeps_find_crosshair_lines.
  unfold _extract_beam_position. repeat keeps_step.
Qed.

(** [__init__] leaves the chain as [ChainMap(context_dicts[context],
    global_params)], over the two halves of what [load_json] gives. *)
Lemma __init___active_params ctx zf js dc s :
  __init__ fs ctx zf js dc = Ret s ->
  exists d,
    load_json fs js = Ret (global_params s, context_dicts s)
    /\ context_dicts s !! ctx = Some d
    /\ active_params s = [d; global_params s].
Proof.
  unfold __init__. destruct (load_json fs js) as [[g c]|] eqn:Hjson; simpl; [| done].
  destruct (c !! ctx) as [d|] eqn:Hd; [| done].
  match goal with |- context [?m ?s0] =>
    lazymatch type of s0 with OAVParameters =>
      assert (Hk : keeps m); [| specialize (Hk s0); destruct (m s0) as [[[]|e] s1] ]
    end end.
  - apply keeps_bind; [apply keeps_update_self_from_current_context | intros _].
    apply keeps_bind; [apply keeps_load_microns_per_pixel | intros _].
    apply keeps__extract_beam_position.
  - unfold configuration in Hk. simpl in Hk. intros E.
    injection E as <-. injection Hk as _ _ _ _ -> -> ->. by exists d.
  - done.
Qed.
End Properties.

(** ** The claims, for every implementation of the builtins *)

Section Claims.
Context `{Builtins} (fs : filesystem).


(** C5 (amended): a line is taken as the marker for zoom level [z] exactly
    when it begins with [zoomLevel = ] followed by [str(z)], whatever comes
    after (the newline [readlines] keeps, or further characters); and
    extraction reads the two lines after the first such line of the file. *)
Theorem marker_is_a_prefix_test :
  (forall line z,
     is_marker line z = true
     <-> exists rest, line = "zoomLevel = " +:+ py_str (VFloat z) +:+ rest)
  /\ (forall z text pre line x y rest a b s,
        zoom s = Some z ->
        read_file fs (display_config s) = Ret text ->
        readlines text = pre ++ line :: x :: y :: rest ->
        Forall (fun l => is_marker l z = false) pre ->
        is_marker line z = true ->
        crosshair_value x = Ret a ->
        crosshair_value y = Ret b ->
        exists s',
          _extract_beam_position fs s = (Ret tt, s')
          /\ beam_centre_i s' = Some a /\ beam_centre_j s' = Some b
          /\ beam_centre_x s' = Some a /\ beam_centre_y s' = Some b).
Proof.
  split.
  - intros line z. apply is_marker_iff.
  - intros z text pre line x y rest a b s Hz Htext Hlines Hpre Hm Ha Hb.
    rewrite (_extract_beam_position_first_marker fs _ _ _ _ _ _ _ _ _ _
               Hz Htext Hlines Hpre Hm Ha Hb).
    eexists. split; [reflexivity |]. by repeat split.
Qed.

(** C6 (amended): [load_json] fails with the exception the interpreter or
    the [json] library raises ([FileNotFoundError] for a missing file,
    [PermissionError] for one that may not be read, [JSONDecodeError] for
    malformed JSON), and no failure of [load_json] is of an error class of
    the module. *)
Theorem load_json_failures_are_builtin filename :
  (fs filename = NoSuchFile -> load_json fs filename = Raise (Exn FileNotFoundError None))
  /\ (fs filename = NoPermission -> load_json fs filename = Raise (Exn PermissionError None))
  /\ (forall text, fs filename = Text text -> json_loads text = None ->
        load_json fs filename = Raise (Exn JSONDecodeError None))
  /\ (forall e, load_json fs filename = Raise e ->
        exn_msg e = None /\ is_oav_error (exn_cls e) = false).
Proof.
  repeat split.
  - apply load_json_missing.
  - apply load_json_no_permission.
  - apply load_json_malformed.
  - by apply (load_json_raises fs filename).
  - by apply (load_json_raises fs filename).
Qed.


End Claims.

(** C9: [calculate_beam_distance] returns the beam centre minus its
    arguments, componentwise, and leaves [self] as it was; at the beam centre
    it returns (0, 0), and at the centre minus (3, 4) it returns (3, 4). *)
Theorem calculate_beam_distance_affine s bx by_ h v :
  beam_centre_i s = Some bx ->
  beam_centre_j s = Some by_ ->
  calculate_beam_distance h v s = (Ret (bx - h, by_ - v), s)
  /\ calculate_beam_distance bx by_ s = (Ret (0, 0), s)
  /\ calculate_beam_distance (bx - 3) (by_ - 4) s = (Ret (3, 4), s).
Proof.
  intros Hi Hj.
  rewrite !(calculate_beam_distance_run s bx by_) by done.
  repeat split; do 2 f_equal; f_equal; lia.
Qed.

(** * More properties of the class *)

(** ** Computations that leave a view of [self] alone *)

Lemma preserves_ret {A B} (f : OAVParameters -> B) (a : A) : preserves f (mret a).
Proof. done. Qed.

Lemma preserves_bind {A A' B} (f : OAVParameters -> B) (m : M A) (k : A -> M A') :
  preserves f m -> (forall a, preserves f (k a)) -> preserves f (m ≫= k).
Proof.
  intros Hm Hk s. unfold mbind, M_bind. specialize (Hm s).
  destruct (m s) as [[a|e] s1]; simpl in *; [| done]. by rewrite Hk.
Qed.

Lemma preserves_lift {A B} (f : OAVParameters -> B) (o : outcome A) : preserves f (lift o).
Proof. done. Qed.

Lemma preserves_raise {A B} (f : OAVParameters -> B) e : preserves f (@raise A e).
Proof. done. Qed.

Lemma preserves_gets {A B} (f : OAVParameters -> B) (g : OAVParameters -> A) :
  preserves f (gets g).
Proof. done. Qed.

Lemma preserves_getattr {A B} (f : OAVParameters -> B) (g : OAVParameters -> option A) :
  preserves f (getattr g).
Proof. intros s. unfold getattr. by destruct (g s). Qed.

Lemma preserves_modify {B} (f : OAVParameters -> B) g :
  (forall s, f (g s) = f s) -> preserves f (modify g).
Proof. done. Qed.

Lemma preserves_for_each {A B} (f : OAVParameters -> B) (l : list A) body :
  (forall a, preserves f (body a)) -> preserves f (for_each l body).
Proof. intros Hb. induction l; simpl; [apply preserves_ret | by apply preserves_bind]. Qed.

Ltac preserves_step :=
  first [ apply preserves_bind; [| intros ?]
        | apply preserves_modify; reflexivity
        | apply preserves_ret | apply preserves_lift | apply preserves_raise
        | apply preserves_gets | apply preserves_getattr
        | apply preserves_for_each; intros ?
        | assumption
        | case_match ].

Section More.
Context `{Builtins} (fs : filesystem).

(** *** [load_json] *)

Lemma load_json_inv filename g c :
  load_json fs filename = Ret (g, c) ->
  exists text raw,
    fs filename = Text text /\ json_loads text = Some (VDict raw)
    /\ g = filter (fun kv => is_dict kv.2 = false) raw
    /\ c = omap as_dict raw.
Proof.
  unfold load_json, read_file, builtin_error.
  destruct (fs filename) as [| | text] eqn:Hfs; simpl; try discriminate.
  destruct (json_loads text) as [[| | | | | | raw]|] eqn:Hjson; try discriminate.
  intros E. injection E as <- <-. by exists text, raw.
Qed.

(** X1: what [load_json] returns splits the top-level entries of the JSON
    object in two: the entries whose value is no dict are the first map, the
    entries whose value is a dict are the second, no key is in both, and the
    two together give the object back. *)
Theorem load_json_partitions filename g c :
  load_json fs filename = Ret (g, c) ->
  exists text raw,
    fs filename = Text text /\ json_loads text = Some (VDict raw)
    /\ raw = g ∪ (VDict <$> c)
    /\ (forall k v, g !! k = Some v <-> raw !! k = Some v /\ is_dict v = false)
    /\ (forall k d, c !! k = Some d <-> raw !! k = Some (VDict d))
    /\ (forall k, g !! k = None \/ c !! k = None).
Proof.
  intros E. apply load_json_inv in E as (text & raw & Hfs & Hjson & -> & ->).
  exists text, raw. split; [done |]. split; [done |].
  assert (Hg : forall k v,
             filter (fun kv : string * value => is_dict kv.2 = false) raw !! k = Some v
             <-> raw !! k = Some v /\ is_dict v = false).
  { intros k v. by rewrite map_lookup_filter_Some. }
  assert (Hc : forall k d, omap as_dict raw !! k = Some d <-> raw !! k = Some (VDict d)).
  { intros k d. rewrite lookup_omap.
    destruct (raw !! k) as [v|]; simpl; [| split; discriminate].
    destruct v; simpl; split; intros E; by simplify_eq. }
  split; [| split; [exact Hg | split; [exact Hc |]]].
  - apply map_eq. intros k. rewrite lookup_union, lookup_fmap.
    destruct (raw !! k) as [v|] eqn:Hk.
    + destruct (is_dict v) eqn:Hv.
      * destruct v; try done.
        assert (Hd : omap as_dict raw !! k = Some d) by by apply Hc.
        rewrite Hd. simpl.
        destruct (filter _ raw !! k) as [w|] eqn:Hw; [| done].
        apply Hg in Hw as [Hw Hw']. rewrite Hk in Hw. by simplify_eq.
      * assert (Hd : filter (fun kv : string * value => is_dict kv.2 = false) raw !! k = Some v)
          by by apply Hg.
        rewrite Hd. by destruct (_ <$> _).
    + destruct (filter _ raw !! k) as [w|] eqn:Hw.
      { apply Hg in Hw as [Hw _]. congruence. }
      destruct (omap as_dict raw !! k) as [d|] eqn:Hd; [| done].
      apply Hc in Hd. congruence.
  - intros k. destruct (filter _ raw !! k) as [w|] eqn:Hw; [| by left]. right.
    apply Hg in Hw as [Hw Hw'].
    destruct (omap as_dict raw !! k) as [d|] eqn:Hd; [| done].
    apply Hc in Hd. rewrite Hw in Hd. by simplify_eq.
Qed.

Lemma preserves_update {A B} (f : OAVParameters -> B) name (t : pytype A) dflt :
  preserves f (update name t dflt).
Proof. unfold update. repeat preserves_step. Qed.

(** *** [update_context] *)

Lemma update_context_frame ctx s :
  let s' := snd (update_context ctx s) in
  s' = set_active_params (active_params s') s.
Proof.
  cbv zeta. unfold update_context. unfold mbind, M_bind, gets, modify, lift. simpl.
  destruct (list_pop (active_params s)) as [[maps' g]|]; simpl.
  - destruct (context_dicts s !! ctx); reflexivity.
  - by destruct s.
Qed.

(** X5: whatever its outcome, [update_context] changes no attribute but
    [active_params]: [self.context] and the materialised parameters, scale
    and beam centre stay those of before the switch. *)
Theorem update_context_changes_the_chain_only ctx s :
  let s' := snd (update_context ctx s) in
  configuration s' = (zoom_params_file s, oav_config_json s, display_config s, context s,
                      global_params s, context_dicts s, active_params s')
  /\ parameters s' = parameters s
  /\ scale s' = scale s
  /\ beam_centre s' = beam_centre s.
Proof.
  cbv zeta. rewrite (update_context_frame ctx s) at 1 3 4 5.
  by repeat split.
Qed.

(** X6: [update_context] with a name that is no context raises [KeyError]
    after the chain has lost its last map. *)
Theorem update_context_unknown_name_pops_the_chain ctx maps g s :
  active_params s = maps ++ [g] ->
  context_dicts s !! ctx = None ->
  update_context ctx s = (Raise (Exn KeyError None), set_active_params maps s).
Proof.
  intros Hmaps Hctx. unfold update_context. unfold mbind, M_bind, gets, modify, lift. simpl.
  rewrite Hmaps, list_pop_snoc. simpl. by rewrite Hctx.
Qed.

(** X7: on the chain [c, g] that [__init__] builds, a switch to a known
    context [d] leaves the chain [d, c], so that every later [update] converts
    the value of [d], else that of the previous context [c], else the
    default, and never reads [g]. *)
Theorem update_context_keeps_previous_context ctx d c g s :
  active_params s = [c; g] ->
  context_dicts s !! ctx = Some d ->
  exists s',
    update_context ctx s = (Ret tt, s')
    /\ active_params s' = [d; c]
    /\ forall name dflt,
         let v := default (default dflt (c !! name)) (d !! name) in
         update name float_t dflt s' = (py_float v, s')
         /\ update name int_t dflt s' = (py_int v, s')
         /\ update name str_t dflt s' = (Ret (py_str v), s').
Proof.
  intros Hmaps Hd.
  rewrite (update_context_run ctx d [c] g s Hmaps Hd).
  eexists. split; [reflexivity |]. split; [reflexivity |].
  intros name dflt. cbv zeta.
  rewrite update_float, update_int, update_str. cbn [active_params set_active_params app].
  rewrite chain_get_two. by repeat split.
Qed.

(** *** [__init__] *)

(** X2: construction fails with the exception of [load_json] when that
    fails, and with [KeyError] when the context name is no key of the JSON
    object whose value is a dict (a name that is missing, or the name of a
    global entry). *)
Theorem __init___fails_with_load_json ctx zf js dc :
  (forall e, load_json fs js = Raise e -> __init__ fs ctx zf js dc = Raise e)
  /\ (forall text raw,
        fs js = Text text -> json_loads text = Some (VDict raw) ->
        (forall d, raw !! ctx <> Some (VDict d)) ->
        __init__ fs ctx zf js dc = Raise (Exn KeyError None)).
Proof.
  split.
  - intros e He. unfold __init__. by rewrite He.
  - intros text raw Hfs Hjson Hctx. unfold __init__, load_json, read_file.
    rewrite Hfs. cbn [obind]. rewrite Hjson. cbn [obind].
    rewrite lookup_omap. destruct (raw !! ctx) as [v|] eqn:Hv; [| reflexivity].
    destruct v; try reflexivity. by destruct (Hctx d).
Qed.

(** *** [update_self_from_current_context] *)

Lemma chain_get_absent key maps dflt : absent key maps -> chain_get maps key dflt = dflt.
Proof. induction 1 as [| m maps Hm _ IH]; simpl; [done |]. by rewrite Hm. Qed.

(** One statement of the method: [self.<attribute> = update(...)]. *)
Ltac update_step E :=
  let Eu := fresh "Eu" in
  let Em := fresh "Em" in
  apply bind_inv in E as (? & ? & Eu & E);
  first [ apply bind_inv in E as ([] & ? & Em & E) | rename E into Em ];
  rewrite ?update_float, ?update_int, ?update_str in Eu;
  unfold modify in Em;
  injection Eu as Eu <-; injection Em as <-; cbn [active_params] in *.

Lemma update_self_from_current_context_inv s s' :
  update_self_from_current_context s = (Ret tt, s') ->
  let get := chain_get (active_params s) in
  exists e a g u l h z p k f c t d m,
    py_float (get "exposure" VNone) = Ret e
    /\ py_float (get "acqPeriod" VNone) = Ret a
    /\ py_float (get "gain" VNone) = Ret g
    /\ py_float (get "CannyEdgeUpperThreshold" VNone) = Ret u
    /\ py_float (get "CannyEdgeLowerThreshold" (VFloat 5.0%float)) = Ret l
    /\ py_int (get "minheight" VNone) = Ret h
    /\ py_float (get "zoom" VNone) = Ret z
    /\ py_int (get "preprocess" VNone) = Ret p
    /\ py_int (get "preProcessKSize" VNone) = Ret k
    /\ py_str (get "filename" VNone) = f
    /\ py_int (get "close_ksize" (VInt 11)) = Ret c
    /\ py_float (get "min_callback_time" (VFloat 0.08%float)) = Ret t
    /\ py_int (get "direction" VNone) = Ret d
    /\ py_float (get "max_tip_distance" (VInt 300)) = Ret m
    /\ s' = assign_parameters e a g u l h z p k f c t d m s.
Proof.
  unfold update_self_from_current_context. intros E. cbv zeta.
  do 14 update_step E.
  do 14 eexists. repeat (split; [eassumption || reflexivity |]). reflexivity.
Qed.

Lemma update_self_from_current_context_run s e a g u l h z p k c t d m :
  let get := chain_get (active_params s) in
  py_float (get "exposure" VNone) = Ret e ->
  py_float (get "acqPeriod" VNone) = Ret a ->
  py_float (get "gain" VNone) = Ret g ->
  py_float (get "CannyEdgeUpperThreshold" VNone) = Ret u ->
  py_float (get "CannyEdgeLowerThreshold" (VFloat 5.0%float)) = Ret l ->
  py_int (get "minheight" VNone) = Ret h ->
  py_float (get "zoom" VNone) = Ret z ->
  py_int (get "preprocess" VNone) = Ret p ->
  py_int (get "preProcessKSize" VNone) = Ret k ->
  py_int (get "close_ksize" (VInt 11)) = Ret c ->
  py_float (get "min_callback_time" (VFloat 0.08%float)) = Ret t ->
  py_int (get "direction" VNone) = Ret d ->
  py_float (get "max_tip_distance" (VInt 300)) = Ret m ->
  update_self_from_current_context s
  = (Ret tt, assign_parameters e a g u l h z p k (py_str (get "filename" VNone)) c t d m s).
Proof.
  cbv zeta. intros He Ha Hg Hu Hl Hh Hz Hp Hk Hc Ht Hd Hm.
  unfold update_self_from_current_context.
  repeat (erewrite bind_ret;
          [| first [ rewrite update_float | rewrite update_int | rewrite update_str
                   | reflexivity ];
             first [ reflexivity | f_equal; eassumption ] ]).
  reflexivity.
Qed.

Lemma bind_inv_raise {A B} (m : M A) (k : A -> M B) s e s' :
  (m ≫= k) s = (Raise e, s') ->
  m s = (Raise e, s') \/ exists a s1, m s = (Ret a, s1) /\ k a s1 = (Raise e, s').
Proof.
  unfold mbind, M_bind. destruct (m s) as [[a|e0] s1] eqn:Em; intros E.
  - right. by exists a, s1.
  - left. by simplify_eq.
Qed.

Lemma update_raises {A} name (t : pytype A) dflt s e s' :
  (forall v e, call t v = Raise e ->
     exn_msg e = None /\ is_conversion_error (exn_cls e) = true) ->
  update name t dflt s = (Raise e, s') ->
  exn_msg e = None /\ is_conversion_error (exn_cls e) = true.
Proof.
  intros Ht. unfold update. unfold mbind, M_bind, gets, raise. simpl.
  destruct (call t _) as [v|e0] eqn:E; [done |].
  destruct (Ht _ _ E) as [Hmsg Hcls].
  destruct (exn_class_eqb (exn_cls e0) AssertionError) eqn:Ha.
  - by destruct (exn_cls e0).
  - intros; by simplify_eq.
Qed.

Ltac raise_step E :=
  apply bind_inv_raise in E as [E | (? & ? & _ & E)];
  [ first [ by eapply update_raises; [| exact E];
               first [apply py_float_raises | apply py_int_raises | by intros ? ? ?]
          | by unfold modify in E ] |].

(** X8: when [update_self_from_current_context] returns, each of the
    fourteen attributes holds the conversion of the first value the chain has
    for its key (or of its default), and the chain is unchanged. *)
Theorem update_self_assigns_layered_lookups s s' :
  update_self_from_current_context s = (Ret tt, s') ->
  let get := chain_get (active_params s) in
  assigned (exposure s') (py_float (get "exposure" VNone))
  /\ assigned (acquire_period s') (py_float (get "acqPeriod" VNone))
  /\ assigned (gain s') (py_float (get "gain" VNone))
  /\ assigned (canny_edge_upper_threshold s') (py_float (get "CannyEdgeUpperThreshold" VNone))
  /\ assigned (canny_edge_lower_threshold s')
       (py_float (get "CannyEdgeLowerThreshold" (VFloat 5.0%float)))
  /\ assigned (minimum_height s') (py_int (get "minheight" VNone))
  /\ assigned (zoom s') (py_float (get "zoom" VNone))
  /\ assigned (preprocess s') (py_int (get "preprocess" VNone))
  /\ assigned (preprocess_K_size s') (py_int (get "preProcessKSize" VNone))
  /\ detection_script_filename s' = Some (py_str (get "filename" VNone))
  /\ assigned (close_ksize s') (py_int (get "close_ksize" (VInt 11)))
  /\ assigned (min_callback_time s') (py_float (get "min_callback_time" (VFloat 0.08%float)))
  /\ assigned (direction s') (py_int (get "direction" VNone))
  /\ assigned (max_tip_distance s') (py_float (get "max_tip_distance" (VInt 300)))
  /\ active_params s' = active_params s.
Proof.
  intros E. apply update_self_from_current_context_inv in E.
  cbv zeta in *.
  destruct E as (e & a & g & u & l & h & z & p & k & f & c & t & d & m & E).
  destruct E as (He & Ha & Hg & Hu & Hl & Hh & Hz & Hp & Hk & Hf & Hc & Ht & Hd & Hm & ->).
  unfold assigned. cbn.
  repeat split; first [ by eexists | congruence | reflexivity ].
Qed.

(** X9: every exception of [update_self_from_current_context] is one the
    conversion raised ([TypeError], [ValueError] or [OverflowError] of the
    interpreter, with no message of the module): its own [TypeError] naming
    the parameter is never raised. *)
Theorem update_self_failures_are_conversion_errors s e s' :
  update_self_from_current_context s = (Raise e, s') ->
  exn_msg e = None /\ is_conversion_error (exn_cls e) = true.
Proof.
  unfold update_self_from_current_context. intros E.
  do 27 raise_step E.
  by unfold modify in E.
Qed.

(** X10: when one of the nine keys looked up with no default for [float] or
    [int] is in no map of the chain, [update_self_from_current_context] does
    not return: it raises a conversion error. *)
Theorem update_self_required_parameter_missing name s :
  name ∈ required_parameters ->
  absent name (active_params s) ->
  exists e s',
    update_self_from_current_context s = (Raise e, s')
    /\ exn_msg e = None /\ is_conversion_error (exn_cls e) = true.
Proof.
  intros Hin Habs.
  destruct (update_self_from_current_context s) as [[[]|e] s'] eqn:E.
  - exfalso. apply update_self_from_current_context_inv in E. cbv zeta in E.
    destruct E as (e & a & g & u & l & h & z & p & k & f & c & t & d & m & E).
    destruct E as (He & Ha & Hg & Hu & Hl & Hh & Hz & Hp & Hk & Hf & Hc & Ht & Hd & Hm & _).
    unfold required_parameters in Hin.
    repeat (apply elem_of_cons in Hin as [-> | Hin]);
      try (rewrite (chain_get_absent _ _ _ Habs) in *; discriminate).
    by apply elem_of_nil in Hin.
  - exists e, s'. split; [reflexivity |].
    revert E. unfold update_self_from_current_context. intros E.
    do 27 raise_step E. by unfold modify in E.
Qed.

(** X11: when [update_self_from_current_context] returns and the key is in
    no map of the chain, the lower Canny threshold is 5.0, the close kernel
    size 11, the minimal callback time 0.08, the tip distance 300.0 and the
    script file name [str(None)]. *)
Theorem update_self_applies_defaults s s' :
  update_self_from_current_context s = (Ret tt, s') ->
  (absent "CannyEdgeLowerThreshold" (active_params s) ->
     canny_edge_lower_threshold s' = Some 5.0%float)
  /\ (absent "close_ksize" (active_params s) -> close_ksize s' = Some 11)
  /\ (absent "min_callback_time" (active_params s) ->
        min_callback_time s' = Some 0.08%float)
  /\ (absent "max_tip_distance" (active_params s) ->
        max_tip_distance s' = Some 300%float)
  /\ (absent "filename" (active_params s) ->
        detection_script_filename s' = Some (repr VNone)).
Proof.
  intros E. apply update_self_from_current_context_inv in E. cbv zeta in E.
  destruct E as (e & a & g & u & l & h & z & p & k & f & c & t & d & m & E).
  destruct E as (He & Ha & Hg & Hu & Hl & Hh & Hz & Hp & Hk & Hf & Hc & Ht & Hd & Hm & ->).
  cbn. repeat split; intros Habs; rewrite (chain_get_absent _ _ _ Habs) in *.
  - simpl in Hl. congruence.
  - simpl in Hc. congruence.
  - simpl in Ht. congruence.
  - simpl in Hm. vm_compute in Hm. congruence.
  - simpl in Hf. congruence.
Qed.

(** X12: a second call of [update_self_from_current_context] after one that
    returned returns and changes nothing. *)
Theorem update_self_is_idempotent s s' :
  update_self_from_current_context s = (Ret tt, s') ->
  update_self_from_current_context s' = (Ret tt, s').
Proof.
  intros E. apply update_self_from_current_context_inv in E. cbv zeta in E.
  destruct E as (e & a & g & u & l & h & z & p & k & f & c & t & d & m & E).
  destruct E as (He & Ha & Hg & Hu & Hl & Hh & Hz & Hp & Hk & Hf & Hc & Ht & Hd & Hm & ->).
  rewrite (update_self_from_current_context_run _ e a g u l h z p k c t d m);
    try assumption.
  f_equal. unfold assign_parameters.
  change (active_params _) with (active_params s). rewrite Hf.
  destruct s. vm_compute. reflexivity.
Qed.

Ltac preserves_tac := repeat first [ apply preserves_update | preserves_step ].

Lemma preserves_update_context {B} (f : OAVParameters -> B) ctx :
  (forall maps s, f (set_active_params maps s) = f s) ->
  preserves f (update_context ctx).
Proof.
  intros Hf. unfold update_context.
  repeat first [ apply preserves_modify; intros; apply Hf | preserves_step ].
Qed.

Lemma preserves_update_self_scale : preserves scale update_self_from_current_context.
Proof. unfold update_self_from_current_context. preserves_tac. Qed.

Lemma preserves_update_self_beam_centre :
  preserves beam_centre update_self_from_current_context.
Proof. unfold update_self_from_current_context. preserves_tac. Qed.

Lemma preserves_load_node {B} (f : OAVParameters -> B) z n :
  (forall v s, f (set_micronsPerXPixel v s) = f s) ->
  (forall v s, f (set_micronsPerYPixel v s) = f s) ->
  preserves f (load_node z n).
Proof.
  intros HX HY. unfold load_node.
  repeat first [ apply preserves_modify; intros; first [apply HX | apply HY]
               | preserves_step ].
Qed.

Lemma preserves_load_parameters z : preserves parameters (load_microns_per_pixel fs z).
Proof.
  unfold load_microns_per_pixel.
  repeat first [ apply preserves_load_node; reflexivity | preserves_step ].
Qed.

Lemma preserves_load_beam_centre z : preserves beam_centre (load_microns_per_pixel fs z).
Proof.
  unfold load_microns_per_pixel.
  repeat first [ apply preserves_load_node; reflexivity | preserves_step ].
Qed.

Lemma preserves_find_crosshair_lines {B} (f : OAVParameters -> B) lines range :
  preserves f (find_crosshair_lines lines range).
Proof. induction range; simpl; preserves_tac. Qed.

Lemma preserves_extract_parameters : preserves parameters (_extract_beam_position fs).
Proof.
  unfold _extract_beam_position.
  repeat first [ apply preserves_find_crosshair_lines | preserves_step ].
Qed.

Lemma preserves_extract_scale : preserves scale (_extract_beam_position fs).
Proof.
  unfold _extract_beam_position.
  repeat first [ apply preserves_find_crosshair_lines | preserves_step ].
Qed.

(** X13: whatever their outcome, [update_self_from_current_context],
    [load_microns_per_pixel] and [_extract_beam_position] each leave the
    configuration and the attributes of the other two as they were. *)
Theorem methods_assign_their_own_attributes zoom_arg s :
  let s1 := snd (update_self_from_current_context s) in
  let s2 := snd (load_microns_per_pixel fs zoom_arg s) in
  let s3 := snd (_extract_beam_position fs s) in
  (configuration s1 = configuration s /\ scale s1 = scale s
   /\ beam_centre s1 = beam_centre s)
  /\ (configuration s2 = configuration s /\ parameters s2 = parameters s
      /\ beam_centre s2 = beam_centre s)
  /\ (configuration s3 = configuration s /\ parameters s3 = parameters s
      /\ scale s3 = scale s).
Proof.
  cbv zeta. repeat split.
  - apply keeps_update_self_from_current_context.
  - apply preserves_update_self_scale.
  - apply preserves_update_self_beam_centre.
  - apply keeps_load_microns_per_pixel.
  - apply preserves_load_parameters.
  - apply preserves_load_beam_centre.
  - apply keeps__extract_beam_position.
  - apply preserves_extract_parameters.
  - apply preserves_extract_scale.
Qed.

(** X14: [update_context] followed by [update_self_from_current_context]
    reloads neither the scale nor the beam centre, whatever the zoom of the
    new context. *)
Theorem context_switch_keeps_scale_and_beam_centre ctx s :
  let s' := snd ((update_context ctx ;; update_self_from_current_context) s) in
  scale s' = scale s /\ beam_centre s' = beam_centre s.
Proof.
  cbv zeta. split.
  - apply (preserves_bind scale); [by apply preserves_update_context | intros _].
    apply preserves_update_self_scale.
  - apply (preserves_bind beam_centre); [by apply preserves_update_context | intros _].
    apply preserves_update_self_beam_centre.
Qed.

(** *** [load_microns_per_pixel] *)

Lemma effective_zoom_run zoom_arg s :
  (if truthy zoom_arg then mret zoom_arg else getattr zoom ≫= fun z0 => mret (VFloat z0)) s
  = (match effective_zoom zoom_arg s with
     | Some z => Ret z
     | None => builtin_error AttributeError
     end, s).
Proof.
  unfold effective_zoom. destruct (truthy zoom_arg); [reflexivity |].
  unfold mbind, M_bind, getattr. by destruct (zoom s).
Qed.

Lemma load_node_ret z n s s' :
  load_node z n s = (Ret tt, s') -> scannable z n = true.
Proof.
  unfold load_node, scannable. unfold mbind, M_bind, lift, modify.
  destruct (child_float "level" n) as [l|]; [| done].
  destruct (py_float_eq l z); [| done].
  destruct (child_float "micronsPerXPixel" n); [| done].
  by destruct (child_float "micronsPerYPixel" n).
Qed.

Lemma for_each_load_node_ret z nodes s s' :
  for_each nodes (load_node z) s = (Ret tt, s') ->
  Forall (fun n => scannable z n = true) nodes.
Proof.
  revert s. induction nodes as [| n nodes IH]; intros s; [constructor |].
  cbn [for_each]. intros E. apply bind_inv in E as ([] & s1 & En & E).
  constructor; [by eapply load_node_ret | by eapply IH].
Qed.

Lemma load_microns_per_pixel_inv zoom_arg s s' :
  load_microns_per_pixel fs zoom_arg s = (Ret tt, s') ->
  exists z root x y d,
    effective_zoom zoom_arg s = Some z
    /\ et_parse fs (zoom_params_file s) = Ret root
    /\ Forall (fun n => scannable z n = true) (findall "zoomLevel" root)
    /\ last_match z (findall "zoomLevel" root) = Some (x, y)
    /\ max_tip_distance s = Some d
    /\ PrimFloat.eqb x 0%float = false
    /\ s' = set_max_tip_distance_pixels (Some (d / x)%float)
              (set_microns (Some (x, y))
                 (set_micronsPerYPixel None (set_micronsPerXPixel None s))).
Proof.
  intros E. pose proof E as E0. unfold load_microns_per_pixel in E.
  apply bind_inv in E as (z & s1 & Ez & E).
  rewrite effective_zoom_run in Ez.
  destruct (effective_zoom zoom_arg s) as [z'|] eqn:Hz; [| done].
  injection Ez as -> <-.
  apply bind_inv in E as (path & s2 & Ep & E). injection Ep as <- <-.
  apply bind_inv in E as (root & s3 & Er & E). unfold lift in Er.
  destruct (et_parse fs (zoom_params_file s)) as [root'|] eqn:Hroot; [| done].
  injection Er as -> <-.
  apply bind_inv in E as ([] & s4 & _ & E).
  apply bind_inv in E as ([] & s5 & _ & E).
  apply bind_inv in E as ([] & s6 & Ef & _).
  apply for_each_load_node_ret in Ef.
  rewrite (load_microns_per_pixel_run fs _ _ _ _ Hz Hroot Ef) in E0. cbv zeta in E0.
  destruct (last_match z (findall "zoomLevel" root)) as [[x y]|] eqn:Hl; [| done].
  destruct (max_tip_distance s) as [d|] eqn:Hd; [| done].
  destruct (PrimFloat.eqb x 0) eqn:Hx0; [done |].
  injection E0 as <-. by exists z, root, x, y, d.
Qed.

Lemma last_match_some z nodes x y :
  last_match z nodes = Some (x, y) ->
  exists pre n post,
    nodes = pre ++ n :: post /\ matches z n = true
    /\ Forall (fun m => matches z m = false \/ scannable z m = false) post
    /\ child_float "micronsPerXPixel" n = Ret x
    /\ child_float "micronsPerYPixel" n = Ret y.
Proof.
  induction nodes as [| m nodes IH]; cbn [last_match]; [done |].
  destruct (last_match z nodes) as [[x' y']|] eqn:Hl.
  - intros E. injection E as -> ->.
    destruct (IH eq_refl) as (pre & n & post & -> & Hn & Hpost & Hx & Hy).
    by exists (m :: pre), n, post.
  - destruct (matches z m) eqn:Hm; [| done].
    destruct (child_float "micronsPerXPixel" m) as [x'|] eqn:Hx; [| done].
    destruct (child_float "micronsPerYPixel" m) as [y'|] eqn:Hy; [| done].
    intros E. injection E as -> ->.
    exists [], m, nodes. repeat split; try done.
    clear IH. induction nodes as [| k nodes IH]; [constructor |].
    cbn [last_match] in Hl. destruct (last_match z nodes) as [[]|] eqn:Hk; [done |].
    constructor; [| by apply IH].
    destruct (matches z k) eqn:Hmk; [right | by left].
    unfold scannable. unfold matches in Hmk.
    destruct (child_float "level" k) as [l|]; [| done]. rewrite Hmk.
    by destruct (child_float "micronsPerXPixel" k), (child_float "micronsPerYPixel" k).
Qed.

(** X15: when [load_microns_per_pixel] returns, the calibration file parsed,
    some [zoomLevel] node has the level looked up, and the scales stored are
    those of the last such node, with [max_tip_distance_pixels] the stored
    tip distance divided by its x scale. *)
Theorem load_microns_per_pixel_returns_last_match zoom_arg s s' :
  load_microns_per_pixel fs zoom_arg s = (Ret tt, s') ->
  exists z root pre n post x y d,
    effective_zoom zoom_arg s = Some z
    /\ et_parse fs (zoom_params_file s) = Ret root
    /\ findall "zoomLevel" root = pre ++ n :: post
    /\ matches z n = true
    /\ Forall (fun m => matches z m = false) post
    /\ child_float "micronsPerXPixel" n = Ret x
    /\ child_float "micronsPerYPixel" n = Ret y
    /\ max_tip_distance s = Some d
    /\ micronsPerXPixel s' = Some x
    /\ micronsPerYPixel s' = Some y
    /\ max_tip_distance_pixels s' = Some (d / x)%float.
Proof.
  intros E. apply load_microns_per_pixel_inv in E
    as (z & root & x & y & d & Hz & Hroot & Hscan & Hl & Hd & Hx0 & ->).
  destruct (last_match_some _ _ _ _ Hl) as (pre & n & post & Hnodes & Hn & Hpost & Hx & Hy).
  rewrite Hnodes in Hscan. apply Forall_app in Hscan as [_ Hscan].
  apply Forall_cons in Hscan as [_ Hscan].
  assert (Hpost' : Forall (fun m => matches z m = false) post).
  { clear -Hscan Hpost. induction Hpost as [| m post Hm _ IH]; [constructor |].
    apply Forall_cons in Hscan as [Hs Hscan].
    constructor; [destruct Hm; congruence | by apply IH]. }
  exists z, root, pre, n, post, x, y, d. by repeat split.
Qed.

(** X16: a second call of [load_microns_per_pixel] with the same argument,
    after one that returned, returns and changes nothing. *)
Theorem load_microns_per_pixel_is_idempotent zoom_arg s s' :
  load_microns_per_pixel fs zoom_arg s = (Ret tt, s') ->
  load_microns_per_pixel fs zoom_arg s' = (Ret tt, s').
Proof.
  intros E. apply load_microns_per_pixel_inv in E
    as (z & root & x & y & d & Hz & Hroot & Hscan & Hl & Hd & Hx0 & ->).
  erewrite (load_microns_per_pixel_run fs zoom_arg z root); [| exact Hz | exact Hroot | exact Hscan].
  cbv zeta. rewrite Hl.
  change (max_tip_distance (set_max_tip_distance_pixels _ _)) with (max_tip_distance s).
  rewrite Hd, Hx0. clear. destruct s. vm_compute. reflexivity.
Qed.

(** X17: when no node has the level looked up, [load_microns_per_pixel]
    raises [OAVError_ZoomLevelNotFound] with a message naming the file and
    the zoom, the two scales are [None] afterwards, and
    [max_tip_distance_pixels] keeps its former value. *)
Theorem load_microns_per_pixel_no_match_resets_the_scales zoom_arg z root s :
  effective_zoom zoom_arg s = Some z ->
  et_parse fs (zoom_params_file s) = Ret root ->
  Forall (fun n => scannable z n = true) (findall "zoomLevel" root) ->
  Forall (fun n => matches z n = false) (findall "zoomLevel" root) ->
  exists s',
    load_microns_per_pixel fs zoom_arg s
    = (Raise (Exn OAVError_ZoomLevelNotFound (Some
         ("Could not find the micronsPer[X,Y]Pixel parameters in " +:+ zoom_params_file s
          +:+ " for zoom level " +:+ py_str z +:+ "."))), s')
    /\ micronsPerXPixel s' = None /\ micronsPerYPixel s' = None
    /\ max_tip_distance_pixels s' = max_tip_distance_pixels s
    /\ configuration s' = configuration s /\ parameters s' = parameters s
    /\ beam_centre s' = beam_centre s.
Proof.
  intros Hz Hroot Hscan Hno.
  rewrite (load_microns_per_pixel_run fs _ _ _ _ Hz Hroot Hscan). cbv zeta.
  rewrite (last_match_none _ _ Hno).
  eexists. split; [reflexivity |]. by repeat split.
Qed.

(** X18: when the x scale of the last matching node is 0.0,
    [load_microns_per_pixel] raises [ZeroDivisionError] after assigning the
    two scales; [max_tip_distance_pixels] keeps its former value. *)
Theorem load_microns_per_pixel_zero_scale zoom_arg z root pre n post y d s :
  effective_zoom zoom_arg s = Some z ->
  et_parse fs (zoom_params_file s) = Ret root ->
  findall "zoomLevel" root = pre ++ n :: post ->
  Forall (fun m => scannable z m = true) (pre ++ n :: post) ->
  matches z n = true ->
  Forall (fun m => matches z m = false) post ->
  child_float "micronsPerXPixel" n = Ret 0%float ->
  child_float "micronsPerYPixel" n = Ret y ->
  max_tip_distance s = Some d ->
  exists s',
    load_microns_per_pixel fs zoom_arg s = (Raise (Exn ZeroDivisionError None), s')
    /\ micronsPerXPixel s' = Some 0%float /\ micronsPerYPixel s' = Some y
    /\ max_tip_distance_pixels s' = max_tip_distance_pixels s.
Proof.
  intros Hz Hroot Hnodes Hscan Hm Hpost Hx Hy Hd.
  rewrite <- Hnodes in Hscan.
  rewrite (load_microns_per_pixel_run fs _ _ _ _ Hz Hroot Hscan).
  rewrite Hnodes, (last_match_last _ _ _ _ _ _ Hm Hx Hy Hpost).
  cbv zeta. rewrite Hd. change (PrimFloat.eqb 0 0) with true. cbv iota.
  eexists. split; [reflexivity |]. by repeat split.
Qed.

(** X19: when the calibration file is missing or does not parse,
    [load_microns_per_pixel] raises [FileNotFoundError] or [ParseError] and
    leaves [self] as it was: the scales are not reset. *)
Theorem load_microns_per_pixel_unreadable_file zoom_arg z s :
  effective_zoom zoom_arg s = Some z ->
  (fs (zoom_params_file s) = NoSuchFile ->
     load_microns_per_pixel fs zoom_arg s = (Raise (Exn FileNotFoundError None), s))
  /\ (forall text,
        fs (zoom_params_file s) = Text text -> xml_fromstring text = None ->
        load_microns_per_pixel fs zoom_arg s = (Raise (Exn ParseError None), s)).
Proof.
  intros Hz.
  assert (Hrun : forall e, et_parse fs (zoom_params_file s) = Raise e ->
                   load_microns_per_pixel fs zoom_arg s = (Raise e, s)).
  { intros e He. unfold load_microns_per_pixel.
    erewrite bind_ret by (rewrite effective_zoom_run, Hz; reflexivity).
    erewrite bind_ret by reflexivity.
    erewrite bind_raise; [reflexivity |]. unfold lift. by rewrite He. }
  split.
  - intros Hfs. apply Hrun. unfold et_parse, read_file. by rewrite Hfs.
  - intros text Hfs Hxml. apply Hrun. unfold et_parse, read_file. rewrite Hfs. simpl.
    by rewrite Hxml.
Qed.

Lemma for_each_app {A} (l1 l2 : list A) body s :
  for_each (l1 ++ l2) body s = (for_each l1 body ;; for_each l2 body) s.
Proof.
  revert s. induction l1 as [| a l1 IH]; intros s; [reflexivity |].
  cbn [app for_each]. unfold mbind, M_bind in *.
  destruct (body a s) as [[[]|e] s1]; [apply IH | reflexivity].
Qed.

(** X20: a [zoomLevel] node with no [level] child makes
    [load_microns_per_pixel] raise [AttributeError] when the loop reaches it,
    whatever the nodes before it matched. *)
Theorem load_microns_per_pixel_node_without_level zoom_arg z root pre n post s :
  effective_zoom zoom_arg s = Some z ->
  et_parse fs (zoom_params_file s) = Ret root ->
  findall "zoomLevel" root = pre ++ n :: post ->
  Forall (fun m => scannable z m = true) pre ->
  find "level" n = None ->
  exists s',
    load_microns_per_pixel fs zoom_arg s = (Raise (Exn AttributeError None), s')
    /\ max_tip_distance_pixels s' = max_tip_distance_pixels s.
Proof.
  intros Hz Hroot Hnodes Hpre Hn. unfold load_microns_per_pixel.
  erewrite bind_ret by (rewrite effective_zoom_run, Hz; reflexivity).
  erewrite bind_ret by reflexivity.
  erewrite bind_ret by (unfold lift; rewrite Hroot; reflexivity).
  erewrite bind_ret by reflexivity.
  erewrite bind_ret by reflexivity.
  cbv zeta. rewrite Hnodes.
  erewrite bind_raise; cycle 1.
  - rewrite for_each_app. erewrite bind_ret by (apply for_each_load_node, Hpre).
    cbn [for_each]. erewrite bind_raise; [reflexivity |].
    unfold load_node. erewrite bind_raise; [reflexivity |].
    unfold lift, child_float, builtin_error. rewrite Hn. reflexivity.
  - eexists. split; [reflexivity |]. by destruct (last_match z pre) as [[]|].
Qed.

(** *** [_extract_beam_position] *)

Lemma crosshair_after_short z pre line rest :
  Forall (fun l => is_marker l z = false) pre ->
  is_marker line z = true ->
  (length rest < 2)%nat ->
  crosshair_after z (pre ++ line :: rest) = builtin_error IndexError.
Proof.
  intros Hpre Hm Hlen. induction Hpre as [| l ls Hl _ IH]; simpl.
  - rewrite Hm. destruct rest as [| x [| y rest]]; simpl in *; [done | done | lia].
  - by rewrite Hl.
Qed.

Lemma crosshair_after_bound z lines cx cy :
  crosshair_after z lines = Ret (cx, cy) ->
  (cx = Unbound /\ cy = Unbound /\ Forall (fun l => is_marker l z = false) lines)
  \/ exists pre line x y rest,
       lines = pre ++ line :: x :: y :: rest
       /\ Forall (fun l => is_marker l z = false) pre
       /\ is_marker line z = true
       /\ cx = Bound (Some x) /\ cy = Bound (Some y).
Proof.
  induction lines as [| l lines IH]; simpl.
  - intros E. injection E as <- <-. left. by repeat split.
  - destruct (is_marker l z) eqn:Hl.
    + destruct lines as [| x [| y rest]]; try done.
      intros E. injection E as <- <-. right. by exists [], l, x, y, rest.
    + intros E. destruct (IH E) as [(-> & -> & Hall) | (pre & line & x & y & rest & H')].
      * left. repeat split; try done. by constructor.
      * destruct H' as (-> & Hpre & Hm & -> & ->). right.
        exists (l :: pre), line, x, y, rest. repeat split; try done. by constructor.
Qed.

(** X21: when fewer than two lines follow the first marker line,
    [_extract_beam_position] raises [IndexError] and leaves [self] as it was. *)
Theorem _extract_beam_position_marker_near_end z text pre line rest s :
  zoom s = Some z ->
  read_file fs (display_config s) = Ret text ->
  readlines text = pre ++ line :: rest ->
  Forall (fun l => is_marker l z = false) pre ->
  is_marker line z = true ->
  (length rest < 2)%nat ->
  _extract_beam_position fs s = (Raise (Exn IndexError None), s).
Proof.
  intros Hz Htext Hlines Hpre Hm Hlen. unfold _extract_beam_position.
  unfold mbind, M_bind, gets, lift. rewrite Htext.
  rewrite (find_crosshair_lines_all z _ s Hz), Hlines.
  by rewrite (crosshair_after_short _ _ _ _ Hpre Hm Hlen).
Qed.

(** X22: when the first crosshair line converts and the second does not,
    [_extract_beam_position] raises the conversion's exception after
    assigning [beam_centre_i] only. *)
Theorem _extract_beam_position_second_line_malformed z text pre line x y rest a e s :
  zoom s = Some z ->
  read_file fs (display_config s) = Ret text ->
  readlines text = pre ++ line :: x :: y :: rest ->
  Forall (fun l => is_marker l z = false) pre ->
  is_marker line z = true ->
  crosshair_value x = Ret a ->
  crosshair_value y = Raise e ->
  _extract_beam_position fs s = (Raise e, set_beam_centre_i (Some a) s).
Proof.
  intros Hz Htext Hlines Hpre Hm Ha He. unfold _extract_beam_position.
  unfold mbind, M_bind, gets, lift. rewrite Htext.
  rewrite (find_crosshair_lines_all z _ s Hz), Hlines.
  rewrite (crosshair_after_first _ _ _ _ _ _ Hpre Hm). by rewrite Ha, He.
Qed.

Lemma _extract_beam_position_inv s s' :
  _extract_beam_position fs s = (Ret tt, s') ->
  exists z text pre line x y rest a b,
    zoom s = Some z
    /\ read_file fs (display_config s) = Ret text
    /\ readlines text = pre ++ line :: x :: y :: rest
    /\ Forall (fun l => is_marker l z = false) pre
    /\ is_marker line z = true
    /\ crosshair_value x = Ret a
    /\ crosshair_value y = Ret b
    /\ s' = set_beam_centre_y (Some b) (set_beam_centre_x (Some a)
              (set_beam_centre_j (Some b) (set_beam_centre_i (Some a) s))).
Proof.
  unfold _extract_beam_position. unfold mbind, M_bind, gets, lift.
  destruct (read_file fs (display_config s)) as [text|] eqn:Htext; [| done].
  destruct (zoom s) as [z|] eqn:Hz.
  - rewrite (find_crosshair_lines_all z _ s Hz).
    destruct (crosshair_after z (readlines text)) as [[cx cy]|] eqn:Hc; [| done].
    apply crosshair_after_bound in Hc
      as [(-> & -> & _) | (pre & line & x & y & rest & Hlines & Hpre & Hm & -> & ->)];
      [done |].
    destruct (crosshair_value x) as [a|] eqn:Ha; simpl; [| done].
    destruct (crosshair_value y) as [b|] eqn:Hb; simpl; [| done].
    unfold modify. intros E. injection E as <-.
    by exists z, text, pre, line, x, y, rest, a, b.
  - destruct (readlines text) as [| l ls]; simpl; [done |].
    unfold mbind, M_bind, lift, getattr, list_getitem. simpl. by rewrite Hz.
Qed.

(** X23: when [_extract_beam_position] returns, the zoom is assigned, the
    file was read, and the four beam-centre attributes are the integers of
    the two lines after the first line that begins with the marker. *)
Theorem _extract_beam_position_returns_first_marker s s' :
  _extract_beam_position fs s = (Ret tt, s') ->
  exists z text pre line x y rest a b,
    zoom s = Some z
    /\ read_file fs (display_config s) = Ret text
    /\ readlines text = pre ++ line :: x :: y :: rest
    /\ Forall (fun l => is_marker l z = false) pre
    /\ is_marker line z = true
    /\ crosshair_value x = Ret a
    /\ crosshair_value y = Ret b
    /\ beam_centre s' = (Some a, Some b, Some a, Some b).
Proof.
  intros E. apply _extract_beam_position_inv in E
    as (z & text & pre & line & x & y & rest & a & b & E).
  destruct E as (Hz & Htext & Hlines & Hpre & Hm & Ha & Hb & ->).
  by exists z, text, pre, line, x, y, rest, a, b.
Qed.

(** X24: after a call of [_extract_beam_position] that returned,
    [calculate_beam_distance] returns the extracted centre minus its
    arguments. *)
Theorem _extract_beam_position_then_calculate_beam_distance s s' :
  _extract_beam_position fs s = (Ret tt, s') ->
  exists a b,
    beam_centre s' = (Some a, Some b, Some a, Some b)
    /\ forall h v, calculate_beam_distance h v s' = (Ret (a - h, b - v), s').
Proof.
  intros E. apply _extract_beam_position_inv in E
    as (z & text & pre & line & x & y & rest & a & b & E).
  destruct E as (_ & _ & _ & _ & _ & _ & _ & ->).
  exists a, b. split; [reflexivity |]. intros h v.
  by apply calculate_beam_distance_run.
Qed.

Lemma find_crosshair_lines_raises_builtin lines range s e s' :
  find_crosshair_lines lines range s = (Raise e, s') -> exn_msg e = None.
Proof.
  revert s. induction range as [| i range IH]; intros s; simpl.
  - unfold mret, M_ret. done.
  - unfold mbind, M_bind, lift, getattr, mret, M_ret, list_getitem, builtin_error.
    destruct (lines !! i); [| intros; by simplify_eq].
    destruct (zoom s); [| intros; by simplify_eq]. destruct (is_marker _ _); [| apply IH].
    destruct (lines !! (i + 1)%nat); [| intros; by simplify_eq].
    destruct (lines !! (i + 2)%nat); [| intros; by simplify_eq].
    done.
Qed.

Lemma crosshair_value_raises_builtin line e :
  crosshair_value line = Raise e -> exn_msg e = None.
Proof.
  unfold crosshair_value, list_getitem, builtin_error.
  destruct (split line " = " !! 1%nat) as [t|]; cbn [obind]; [| intros; by simplify_eq].
  intros E. by apply py_int_raises in E as [E _].
Qed.

(** X25: every exception of [_extract_beam_position] is raised by the
    interpreter: none has a message of the module, none is an error class of
    the module. *)
Theorem _extract_beam_position_raises_no_error_of_the_module s e s' :
  _extract_beam_position fs s = (Raise e, s') ->
  exn_msg e = None /\ is_oav_error (exn_cls e) = false.
Proof.
  unfold _extract_beam_position.
  unfold mbind, M_bind, gets, lift, modify, raise, getattr.
  destruct (read_file fs (display_config s)) as [text|e0] eqn:Htext.
  2:{ unfold read_file, builtin_error in Htext. intros E.
      repeat case_match; by simplify_eq. }
  destruct (find_crosshair_lines _ _ s) as [[[cx cy]|e0] s1] eqn:Hfind.
  2:{ pose proof (find_crosshair_lines_raises_builtin _ _ _ _ _ Hfind).
      pose proof (find_crosshair_lines_raises _ _ _ _ _ Hfind).
      intros; by simplify_eq. }
  apply find_crosshair_lines_shape in Hfind as [E | (x & y & E)]; simplify_eq.
  { unfold builtin_error. intros; by simplify_eq. }
  destruct (crosshair_value x) as [a|e0] eqn:Ha; simpl.
  2:{ pose proof (crosshair_value_raises_builtin _ _ Ha).
      pose proof (crosshair_value_raises _ _ Ha). intros; by simplify_eq. }
  destruct (crosshair_value y) as [b|e0] eqn:Hb; simpl; [done |].
  pose proof (crosshair_value_raises_builtin _ _ Hb).
  pose proof (crosshair_value_raises _ _ Hb). intros; by simplify_eq.
Qed.

(** *** The object [__init__] returns *)

Lemma __init___inv ctx zf js dc s :
  __init__ fs ctx zf js dc = Ret s ->
  exists g c d s0 s1 s2,
    load_json fs js = Ret (g, c)
    /\ c !! ctx = Some d
    /\ configuration s0 = (zf, js, dc, ctx, g, c, [d; g])
    /\ update_self_from_current_context s0 = (Ret tt, s1)
    /\ load_microns_per_pixel fs VNone s1 = (Ret tt, s2)
    /\ _extract_beam_position fs s2 = (Ret tt, s).
Proof.
  unfold __init__. destruct (load_json fs js) as [[g c]|] eqn:Hjson; simpl; [| done].
  destruct (c !! ctx) as [d|] eqn:Hd; [| done].
  lazymatch goal with
  | |- (let (_, _) := ?m ?self in _) = _ -> _ =>
      assert (Hc : configuration self = (zf, js, dc, ctx, g, c, [d; g])) by reflexivity;
      generalize dependent self; intros s0 Hc;
      destruct (m s0) as [[[]|e] s3] eqn:E; [| done]
  end.
  intros E'. injection E' as <-.
  apply bind_inv in E as ([] & s1 & E1 & E).
  apply bind_inv in E as ([] & s2 & E2 & E).
  by exists g, c, d, s0, s1, s2.
Qed.

(** X3: the object [__init__] returns keeps its four arguments and the two
    maps of [load_json], its chain is [context_dicts[context], global_params],
    and each of its fourteen parameters is the conversion of the first value
    found for its key in the context, then in the global map, then its
    default. *)
Theorem __init___materialises_the_layered_lookup ctx zf js dc s :
  __init__ fs ctx zf js dc = Ret s ->
  exists g c d,
    load_json fs js = Ret (g, c)
    /\ c !! ctx = Some d
    /\ configuration s = (zf, js, dc, ctx, g, c, [d; g])
    /\ let get := chain_get [d; g] in
       assigned (exposure s) (py_float (get "exposure" VNone))
       /\ assigned (acquire_period s) (py_float (get "acqPeriod" VNone))
       /\ assigned (gain s) (py_float (get "gain" VNone))
       /\ assigned (canny_edge_upper_threshold s)
            (py_float (get "CannyEdgeUpperThreshold" VNone))
       /\ assigned (canny_edge_lower_threshold s)
            (py_float (get "CannyEdgeLowerThreshold" (VFloat 5.0%float)))
       /\ assigned (minimum_height s) (py_int (get "minheight" VNone))
       /\ assigned (zoom s) (py_float (get "zoom" VNone))
       /\ assigned (preprocess s) (py_int (get "preprocess" VNone))
       /\ assigned (preprocess_K_size s) (py_int (get "preProcessKSize" VNone))
       /\ detection_script_filename s = Some (py_str (get "filename" VNone))
       /\ assigned (close_ksize s) (py_int (get "close_ksize" (VInt 11)))
       /\ assigned (min_callback_time s)
            (py_float (get "min_callback_time" (VFloat 0.08%float)))
       /\ assigned (direction s) (py_int (get "direction" VNone))
       /\ assigned (max_tip_distance s) (py_float (get "max_tip_distance" (VInt 300))).
Proof.
  intros E. apply __init___inv in E
    as (g & c & d & s0 & s1 & s2 & Hjson & Hd & Hc & E0 & E1 & E2).
  exists g, c, d. split; [done |]. split; [done |].
  assert (Hconf : configuration s = configuration s0).
  { pose proof (keeps__extract_beam_position fs s2) as H2.
    pose proof (keeps_load_microns_per_pixel fs VNone s1) as H1.
    pose proof (keeps_update_self_from_current_context s0) as H0.
    rewrite E2 in H2. rewrite E1 in H1. rewrite E0 in H0. simpl in *. congruence. }
  split; [congruence |].
  assert (Hpar : parameters s = parameters s1).
  { pose proof (preserves_extract_parameters s2) as H2.
    pose proof (preserves_load_parameters VNone s1) as H1.
    rewrite E2 in H2. rewrite E1 in H1. simpl in *. congruence. }
  assert (Hmaps : active_params s0 = [d; g]).
  { unfold configuration in Hc. by injection Hc. }
  apply update_self_from_current_context_inv in E0. cbv zeta in E0. rewrite Hmaps in E0.
  destruct E0 as (e & a & g' & u & l & h & z & p & k & f & c' & t & d' & m & E0).
  destruct E0 as (He & Ha & Hg & Hu & Hl & Hh & Hz & Hp & Hk & Hf & Hcl & Ht & Hdi & Hm & ->).
  unfold parameters in Hpar. cbn in Hpar.
  injection Hpar as -> -> -> -> -> -> -> -> -> -> -> -> -> ->.
  cbv zeta. unfold assigned. rewrite Hf.
  repeat split; first [ by eexists | reflexivity ].
Qed.

(** X4: on the object [__init__] returns the two scales are assigned, the x
    scale is not zero, [max_tip_distance_pixels] is [max_tip_distance]
    divided by it, the beam centre is assigned twice over with the same
    values, and [calculate_beam_distance] returns for all arguments. *)
Theorem __init___leaves_every_attribute_assigned ctx zf js dc s :
  __init__ fs ctx zf js dc = Ret s ->
  (exists d x y,
     max_tip_distance s = Some d
     /\ micronsPerXPixel s = Some x /\ micronsPerYPixel s = Some y
     /\ PrimFloat.eqb x 0%float = false
     /\ max_tip_distance_pixels s = Some (d / x)%float)
  /\ (exists a b,
        beam_centre s = (Some a, Some b, Some a, Some b)
        /\ forall h v, calculate_beam_distance h v s = (Ret (a - h, b - v), s)).
Proof.
  intros E. apply __init___inv in E
    as (g & c & d & s0 & s1 & s2 & Hjson & Hd & Hc & E0 & E1 & E2).
  split.
  - apply load_microns_per_pixel_inv in E1
      as (z & root & x & y & dd & _ & _ & _ & _ & Hdd & Hx0 & ->).
    pose proof (preserves_extract_parameters
      (set_max_tip_distance_pixels (Some (dd / x)%float)
         (set_microns (Some (x, y))
            (set_micronsPerYPixel None (set_micronsPerXPixel None s1))))) as Hp.
    pose proof (preserves_extract_scale
      (set_max_tip_distance_pixels (Some (dd / x)%float)
         (set_microns (Some (x, y))
            (set_micronsPerYPixel None (set_micronsPerXPixel None s1))))) as Hs.
    rewrite E2 in Hp, Hs. unfold parameters in Hp. unfold scale in Hs. cbn in Hp, Hs.
    injection Hp as _ _ _ _ _ _ _ _ _ _ _ _ _ Hp. injection Hs as HX HY HP.
    exists dd, x, y. repeat split; congruence.
  - apply _extract_beam_position_inv in E2
      as (z & text & pre & line & x & y & rest & a & b & E).
    destruct E as (_ & _ & _ & _ & _ & _ & _ & ->).
    exists a, b. split; [reflexivity |]. intros h v. by apply calculate_beam_distance_run.
Qed.
End More.

(** ** The claims on the zoom calibration *)


Section ScaleClaims.
Context `{Builtins} (fs : filesystem).

(** The node the loop assigned from last: none after it has the level. *)
Lemma last_match_selects z nodes x y :
  Forall (fun m => scannable z m = true) nodes ->
  last_match z nodes = Some (x, y) ->
  exists pre n post,
    nodes = pre ++ n :: post /\ matches z n = true
    /\ Forall (fun m => matches z m = false) post
    /\ child_float "micronsPerXPixel" n = Ret x
    /\ child_float "micronsPerYPixel" n = Ret y.
Proof.
  intros Hscan Hl.
  destruct (last_match_some _ _ _ _ Hl) as (pre & n & post & -> & Hn & Hpost & Hx & Hy).
  apply Forall_app in Hscan as [_ Hscan].
  apply Forall_cons in Hscan as [_ Hscan].
  exists pre, n, post. repeat split; try done.
  clear -Hscan Hpost. induction Hpost as [| m post Hm _ IH]; [constructor |].
  apply Forall_cons in Hscan as [Hs Hscan].
  constructor; [destruct Hm; congruence | by apply IH].
Qed.

(** C4 (amended): when the calibration file parses, the loop raises on no
    node and [n] is the last [zoomLevel] node in document order whose level
    equals the requested zoom, [load_microns_per_pixel] stores the two
    scales of [n], however many earlier nodes match and whatever the outcome
    of the call; and the call returns exactly when the stored tip distance
    is set and the x scale of [n] is not zero. *)
Theorem load_microns_per_pixel_takes_last_match
    zoom_arg z root pre n post x y s :
  effective_zoom zoom_arg s = Some z ->
  et_parse fs (zoom_params_file s) = Ret root ->
  findall "zoomLevel" root = pre ++ n :: post ->
  Forall (fun m => scannable z m = true) (pre ++ n :: post) ->
  matches z n = true ->
  Forall (fun m => matches z m = false) post ->
  child_float "micronsPerXPixel" n = Ret x ->
  child_float "micronsPerYPixel" n = Ret y ->
  let r := load_microns_per_pixel fs zoom_arg s in
  micronsPerXPixel (snd r) = Some x
  /\ micronsPerYPixel (snd r) = Some y
  /\ (fst r = Ret tt
      <-> (exists d, max_tip_distance s = Some d) /\ PrimFloat.eqb x 0%float = false).
Proof.
  intros Hz Hroot Hnodes Hscan Hm Hpost Hx Hy r. subst r.
  rewrite <- Hnodes in Hscan.
  rewrite (load_microns_per_pixel_run fs _ _ _ _ Hz Hroot Hscan).
  rewrite Hnodes, (last_match_last _ _ _ _ _ _ Hm Hx Hy Hpost).
  cbn zeta.
  destruct (max_tip_distance s) as [d|]; [destruct (PrimFloat.eqb x 0) |];
    (split; [reflexivity |]); (split; [reflexivity |]); cbn [fst]; unfold builtin_error.
  - split; [done | by intros [_ ?]].
  - split; [eauto | done].
  - split; [done | by intros [[d ?] _]].
Qed.

(** C8: after a call of [load_microns_per_pixel] that returns, the x scale
    stored is that of the last [zoomLevel] node whose level equals the zoom
    looked up, and [max_tip_distance_pixels] is [max_tip_distance] divided
    by it; and on a calibration file with the two entries 1.0: (2.5, 2.5)
    and 5.0: (0.5, 0.5), in either order, with [max_tip_distance] 300, the
    call for zoom 5.0 returns with [micronsPerXPixel] 0.5 and
    [max_tip_distance_pixels] 600, and the call for zoom 1.0 with 2.5 and
    120. *)
Theorem max_tip_distance_pixels_invariant :
  (forall zoom_arg s s',
     load_microns_per_pixel fs zoom_arg s = (Ret tt, s') ->
     exists z root pre n post x d,
       effective_zoom zoom_arg s = Some z
       /\ et_parse fs (zoom_params_file s) = Ret root
       /\ findall "zoomLevel" root = pre ++ n :: post
       /\ matches z n = true
       /\ Forall (fun m => matches z m = false) post
       /\ child_float "micronsPerXPixel" n = Ret x
       /\ micronsPerXPixel s' = Some x
       /\ max_tip_distance s' = Some d
       /\ max_tip_distance_pixels s' = Some (d / x)%float)
  /\ (forall s root n1 n2,
        et_parse fs (zoom_params_file s) = Ret root ->
        findall "zoomLevel" root = [n1; n2] \/ findall "zoomLevel" root = [n2; n1] ->
        calibration_entry n1 1.0%float 2.5%float 2.5%float ->
        calibration_entry n2 5.0%float 0.5%float 0.5%float ->
        max_tip_distance s = Some 300%float ->
        (exists s',
           load_microns_per_pixel fs (VFloat 5.0%float) s = (Ret tt, s')
           /\ micronsPerXPixel s' = Some 0.5%float
           /\ max_tip_distance_pixels s' = Some 600%float)
        /\ (exists s',
              load_microns_per_pixel fs (VFloat 1.0%float) s = (Ret tt, s')
              /\ micronsPerXPixel s' = Some 2.5%float
              /\ max_tip_distance_pixels s' = Some 120%float)).
Proof.
  split.
  - intros zoom_arg s s' E. apply load_microns_per_pixel_inv in E
      as (z & root & x & y & d & Hz & Hroot & Hscan & Hl & Hd & Hx0 & ->).
    destruct (last_match_selects _ _ _ _ Hscan Hl)
      as (pre & n & post & Hnodes & Hn & Hpost & Hx & Hy).
    exists z, root, pre, n, post, x, d. by repeat split.
  - intros s root n1 n2 Hroot Hnodes (L1 & X1 & Y1) (L2 & X2 & Y2) Hd.
    assert (Hscan : forall z, Forall (fun m => scannable z m = true)
                                (findall "zoomLevel" root)).
    { intros z. destruct Hnodes as [-> | ->]; repeat constructor; unfold scannable;
        rewrite ?L1, ?X1, ?Y1, ?L2, ?X2, ?Y2; by destruct (py_float_eq _ z). }
    split.
    + rewrite (load_microns_per_pixel_run fs (VFloat 5.0%float) (VFloat 5.0%float) root s
                 eq_refl Hroot (Hscan _)).
      destruct Hnodes as [-> | ->]; cbn [last_match]; unfold matches;
        rewrite L1, L2, ?X2, ?Y2; cbn; rewrite Hd;
        (eexists; split; [reflexivity |]; by split).
    + rewrite (load_microns_per_pixel_run fs (VFloat 1.0%float) (VFloat 1.0%float) root s
                 eq_refl Hroot (Hscan _)).
      destruct Hnodes as [-> | ->]; cbn [last_match]; unfold matches;
        rewrite L1, L2, ?X1, ?Y1; cbn; rewrite Hd;
        (eexists; split; [reflexivity |]; by split).
Qed.

End ScaleClaims.

(** ** The claims, on the fixtures *)

Import Fixture.

(** Closed goals: an equation by evaluation, a [Forall] over a list that
    evaluates element by element. *)
Ltac by_evaluation :=
  lazymatch goal with
  | |- Forall ?P ?l =>
      let l' := eval vm_compute in l in
      change (Forall P l');
      repeat first [ apply List.Forall_nil
                   | apply List.Forall_cons; [vm_compute; reflexivity |] ]
  | |- _ = _ => vm_compute; reflexivity
  end.

(** C1 (the code departs from it): [update_context] is to replace the top
    layer and keep the global parameters as fallback.  The object built for
    the context [loopCentring] has the chain [loopCentring, global]:
    [exposure] is the global 0.5 and [gain] the context's 2.0.  On it
    [update_context "xrayCentring"] pops the global map and leaves the chain
    [xrayCentring, loopCentring]: [exposure], which only the global map has,
    is no longer found, so that [update_self_from_current_context] raises the
    interpreter's [TypeError] on [float(None)]; and [gain], which
    [xrayCentring] lacks, resolves to 2.0, the value of the context that was
    left, not to the global 1.0. *)
Theorem update_context_pops_global_layer :
  let s0 := Fixture.constructed_object in
  let s1 := set_active_params [Fixture.xrayCentring; Fixture.loopCentring] s0 in
  Fixture.constructed = Ret s0
  /\ active_params s0 = [Fixture.loopCentring; Fixture.global]
  /\ exposure s0 = Some 0.5%float /\ gain s0 = Some 2.0%float
  /\ update_context "xrayCentring" s0 = (Ret tt, s1)
  /\ Fixture.xrayCentring !! "exposure" = None
  /\ Fixture.global !! "exposure" = Some (VFloat 0.5%float)
  /\ chain_get (active_params s1) "exposure" VNone = VNone
  /\ fst (update_self_from_current_context s1) = Raise (Exn TypeError None)
  /\ Fixture.xrayCentring !! "gain" = None
  /\ Fixture.global !! "gain" = Some (VFloat 1.0%float)
  /\ chain_get (active_params s1) "gain" VNone = VFloat 2.0%float.
Proof.
  cbv zeta. split; [vm_compute; reflexivity |].
  do 3 (split; [reflexivity |]). split.
  - apply (update_context_run "xrayCentring" Fixture.xrayCentring
             [Fixture.loopCentring] Fixture.global); [reflexivity | vm_compute; reflexivity].
  - repeat split; vm_compute; reflexivity.
Qed.

(** C2 (the code departs from it): a value that cannot be converted is to
    raise a [TypeError] naming the field.  With [exposure] the string
    [fast], [update] lets the [ValueError] of [float] through, with no
    message of the module: its handler catches [AssertionError] only. *)
Theorem update_unconvertible_string_raises_ValueError :
  let s := Fixture.object "zoom.xml" "display.configuration"
             [{[ "exposure" := VStr "fast" ]}; Fixture.global] 5.0%float 300%float in
  update "exposure" float_t VNone s = (Raise (Exn ValueError None), s)
  /\ update_self_from_current_context s = (Raise (Exn ValueError None), s).
Proof. cbv zeta. split; vm_compute; reflexivity. Qed.

(** C3 (the code departs from it): a beam-position file with no marker line
    for the zoom is to raise [OAVError_BeamPositionNotFound].  On a file that
    holds level 5.0 only, extraction at zoom 1.0 raises [UnboundLocalError]:
    the two locals the test reads were never bound. *)
Theorem _extract_beam_position_without_marker_is_unbound :
  let s := Fixture.loaded "zoom.xml" "display_other_level.configuration" 1.0%float in
  Forall (fun l => is_marker l 1.0%float = false) (readlines Fixture.display_other_level)
  /\ _extract_beam_position Fixture.fs s = (Raise (Exn UnboundLocalError None), s).
Proof.
  cbv zeta. split.
  - by_evaluation.
  - vm_compute. reflexivity.
Qed.

(** C4, as stated, fails: in [duplicated.xml] the first node of level 5.0
    has the scales (0.5, 0.5) and the last one (0.25, 0.25); the call for
    zoom 5.0 stores the scales of the last. *)
Lemma first_match_is_overwritten :
  let s := Fixture.loaded "duplicated.xml" "display.configuration" 5.0%float in
  let nodes := findall "zoomLevel" (Fixture.zoom_levels_tree Fixture.duplicated) in
  let r := load_microns_per_pixel Fixture.fs (VFloat 5.0%float) s in
  et_parse Fixture.fs (zoom_params_file s) = Ret (Fixture.zoom_levels_tree Fixture.duplicated)
  /\ List.find (matches (VFloat 5.0%float)) nodes
     = Some (Fixture.zoom_level_node "5.0" "0.5" "0.5")
  /\ child_float "micronsPerXPixel" (Fixture.zoom_level_node "5.0" "0.5" "0.5") = Ret 0.5%float
  /\ fst r = Ret tt
  /\ micronsPerXPixel (snd r) = Some 0.25%float
  /\ micronsPerYPixel (snd r) = Some 0.25%float.
Proof. cbv zeta. repeat split; vm_compute; reflexivity. Qed.

Lemma load_microns_per_pixel_takes_last_match_witness :
  let s := Fixture.loaded "duplicated.xml" "display.configuration" 5.0%float in
  let r := load_microns_per_pixel Fixture.fs (VFloat 5.0%float) s in
  let s0 := Fixture.loaded "zero_scale.xml" "display.configuration" 5.0%float in
  let r0 := @load_microns_per_pixel EdgeFixture.builtins EdgeFixture.fs VNone s0 in
  (micronsPerXPixel (snd r) = Some 0.25%float
   /\ micronsPerYPixel (snd r) = Some 0.25%float
   /\ (fst r = Ret tt
       <-> (exists d, max_tip_distance s = Some d)
           /\ PrimFloat.eqb 0.25%float 0%float = false))
  /\ (micronsPerXPixel (snd r0) = Some 0%float
      /\ micronsPerYPixel (snd r0) = Some 0%float
      /\ (fst r0 = Ret tt
          <-> (exists d, max_tip_distance s0 = Some d)
              /\ PrimFloat.eqb 0%float 0%float = false)).
Proof.
  cbv zeta. split.
  - apply (load_microns_per_pixel_takes_last_match Fixture.fs
             (VFloat 5.0%float) (VFloat 5.0%float)
             (Fixture.zoom_levels_tree Fixture.duplicated)
             [Fixture.zoom_level_node "5.0" "0.5" "0.5";
              Fixture.zoom_level_node "1.0" "2.5" "2.5"]
             (Fixture.zoom_level_node "5.0" "0.25" "0.25") []
             0.25%float 0.25%float);
      by_evaluation.
  - apply (@load_microns_per_pixel_takes_last_match EdgeFixture.builtins EdgeFixture.fs
             VNone (VFloat 5.0%float) (Fixture.zoom_levels_tree EdgeFixture.zero_scale)
             [] (Fixture.zoom_level_node "5.0" "0.0" "0.0") [] 0%float 0%float);
      by_evaluation.
Defined.

(** C5, as stated, fails: at zoom 1.0 the line [zoomLevel = 1.05] is not
    equal to [zoomLevel = 1.0], yet it is taken as the marker, and the beam
    centre is read from the two lines after it, (100, 200), not from those
    after the later line [zoomLevel = 1.0], (300, 400). *)
Lemma longer_line_is_taken_as_marker :
  let line := "zoomLevel = 1.05
" in
  let s := Fixture.loaded "zoom.xml" "display_longer_first.configuration" 1.0%float in
  let r := _extract_beam_position Fixture.fs s in
  readlines Fixture.display_longer_first !! 0%nat = Some line
  /\ String.eqb line ("zoomLevel = " +:+ py_str (VFloat 1.0%float)) = false
  /\ is_marker line 1.0%float = true
  /\ fst r = Ret tt
  /\ beam_centre_i (snd r) = Some 100
  /\ beam_centre_j (snd r) = Some 200.
Proof. cbv zeta. repeat split; vm_compute; reflexivity. Qed.

Lemma marker_is_a_prefix_test_witness :
  exists s',
    _extract_beam_position Fixture.fs
      (Fixture.loaded "zoom.xml" "display.configuration" 1.0%float) = (Ret tt, s')
    /\ beam_centre_i s' = Some 100 /\ beam_centre_j s' = Some 200
    /\ beam_centre_x s' = Some 100 /\ beam_centre_y s' = Some 200.
Proof.
  apply (proj2 (marker_is_a_prefix_test Fixture.fs) 1.0%float Fixture.display_two_levels []
           "zoomLevel = 1.0
" "crosshairX = 100
" "crosshairY = 200
" ["zoomLevel = 5.0
"; "crosshairX = 300
"; "crosshairY = 400
"]);
    by_evaluation.
Defined.

(** C6, as stated, fails: for a missing file [load_json] raises the
    interpreter's [FileNotFoundError], and for truncated JSON the library's
    [JSONDecodeError]; neither is an error class of the module. *)
Lemma load_json_raises_untyped_errors :
  Fixture.fs "missing.json" = NoSuchFile
  /\ load_json Fixture.fs "missing.json" = Raise (Exn FileNotFoundError None)
  /\ is_oav_error FileNotFoundError = false
  /\ Fixture.fs "truncated.json" = Text "{"
  /\ load_json Fixture.fs "truncated.json" = Raise (Exn JSONDecodeError None)
  /\ is_oav_error JSONDecodeError = false.
Proof. repeat split; vm_compute; reflexivity. Qed.

Lemma load_json_failures_are_builtin_witness :
  load_json Fixture.fs "missing.json" = Raise (Exn FileNotFoundError None)
  /\ load_json Fixture.fs "secret.json" = Raise (Exn PermissionError None)
  /\ load_json Fixture.fs "truncated.json" = Raise (Exn JSONDecodeError None).
Proof.
  split; [| split].
  - apply (proj1 (load_json_failures_are_builtin Fixture.fs "missing.json")).
    reflexivity.
  - apply (proj1 (proj2 (load_json_failures_are_builtin Fixture.fs "secret.json"))).
    reflexivity.
  - apply (proj1 (proj2 (proj2 (load_json_failures_are_builtin Fixture.fs "truncated.json")))
             "{"); reflexivity.
Defined.



Lemma max_tip_distance_pixels_invariant_witness :
  let s := Fixture.loaded "zoom.xml" "display.configuration" 1.0%float in
  let s5 := snd (load_microns_per_pixel Fixture.fs (VFloat 5.0%float) s) in
  (exists z root pre n post x d,
     effective_zoom (VFloat 5.0%float) s = Some z
     /\ et_parse Fixture.fs (zoom_params_file s) = Ret root
     /\ findall "zoomLevel" root = pre ++ n :: post
     /\ matches z n = true
     /\ Forall (fun m => matches z m = false) post
     /\ child_float "micronsPerXPixel" n = Ret x
     /\ micronsPerXPixel s5 = Some x
     /\ max_tip_distance s5 = Some d
     /\ max_tip_distance_pixels s5 = Some (d / x)%float)
  /\ (exists s',
        load_microns_per_pixel Fixture.fs (VFloat 5.0%float) s = (Ret tt, s')
        /\ micronsPerXPixel s' = Some 0.5%float
        /\ max_tip_distance_pixels s' = Some 600%float)
  /\ (exists s',
        load_microns_per_pixel Fixture.fs (VFloat 1.0%float) s = (Ret tt, s')
        /\ micronsPerXPixel s' = Some 2.5%float
        /\ max_tip_distance_pixels s' = Some 120%float).
Proof.
  cbv zeta. split.
  - apply (proj1 (max_tip_distance_pixels_invariant Fixture.fs) (VFloat 5.0%float)
             (Fixture.loaded "zoom.xml" "display.configuration" 1.0%float)).
    vm_compute. reflexivity.
  - apply (proj2 (max_tip_distance_pixels_invariant Fixture.fs)
             (Fixture.loaded "zoom.xml" "display.configuration" 1.0%float)
             (Fixture.zoom_levels_tree Fixture.calibration)
             (Fixture.zoom_level_node "1.0" "2.5" "2.5")
             (Fixture.zoom_level_node "5.0" "0.5" "0.5")).
    + vm_compute. reflexivity.
    + left. vm_compute. reflexivity.
    + repeat split; vm_compute; reflexivity.
    + repeat split; vm_compute; reflexivity.
    + vm_compute. reflexivity.
Defined.

Lemma calculate_beam_distance_affine_witness :
  let s := set_beam_centre_j (Some 359) (set_beam_centre_i (Some 477)
             (Fixture.loaded "zoom.xml" "display.configuration" 1.0%float)) in
  calculate_beam_distance 400 300 s = (Ret (77, 59), s)
  /\ calculate_beam_distance 477 359 s = (Ret (0, 0), s)
  /\ calculate_beam_distance 474 355 s = (Ret (3, 4), s).
Proof.
  cbv zeta.
  apply (calculate_beam_distance_affine
           (set_beam_centre_j (Some 359) (set_beam_centre_i (Some 477)
              (Fixture.loaded "zoom.xml" "display.configuration" 1.0%float)))
           477 359 400 300); reflexivity.
Defined.


(** ** More properties, on the fixtures *)

Lemma load_json_partitions_witness :
  exists text raw,
    Fixture.fs "OAVCentring.json" = Text text /\ json_loads text = Some (VDict raw)
    /\ raw = Fixture.global ∪ (VDict <$> Fixture.contexts)
    /\ (forall k v, Fixture.global !! k = Some v <-> raw !! k = Some v /\ is_dict v = false)
    /\ (forall k d, Fixture.contexts !! k = Some d <-> raw !! k = Some (VDict d))
    /\ (forall k, Fixture.global !! k = None \/ Fixture.contexts !! k = None).
Proof.
  apply (load_json_partitions Fixture.fs "OAVCentring.json" Fixture.global Fixture.contexts).
  vm_compute. reflexivity.
Defined.

Lemma __init___fails_with_load_json_witness :
  __init__ Fixture.fs "loopCentring" "zoom.xml" "missing.json" "display.configuration"
  = Raise (Exn FileNotFoundError None)
  /\ __init__ Fixture.fs "exposure" "zoom.xml" "OAVCentring.json" "display.configuration"
     = Raise (Exn KeyError None).
Proof.
  split.
  - apply (proj1 (__init___fails_with_load_json Fixture.fs "loopCentring" "zoom.xml"
                    "missing.json" "display.configuration")).
    vm_compute. reflexivity.
  - apply (proj2 (__init___fails_with_load_json Fixture.fs "exposure" "zoom.xml"
                    "OAVCentring.json" "display.configuration")
             Fixture.json_text
             (<[ "loopCentring" := VDict Fixture.loopCentring ]>
                (<[ "xrayCentring" := VDict Fixture.xrayCentring ]> Fixture.global)));
      [vm_compute; reflexivity | vm_compute; reflexivity |].
    intros d. vm_compute. discriminate.
Defined.

Lemma update_context_unknown_name_pops_the_chain_witness :
  update_context "nope" Fixture.constructed_object
  = (Raise (Exn KeyError None),
     set_active_params [Fixture.loopCentring] Fixture.constructed_object).
Proof.
  apply (update_context_unknown_name_pops_the_chain "nope" [Fixture.loopCentring]
           Fixture.global Fixture.constructed_object);
    [reflexivity | vm_compute; reflexivity].
Defined.

Lemma update_context_keeps_previous_context_witness :
  exists s',
    update_context "xrayCentring" Fixture.constructed_object = (Ret tt, s')
    /\ active_params s' = [Fixture.xrayCentring; Fixture.loopCentring]
    /\ forall name dflt,
         let v := default (default dflt (Fixture.loopCentring !! name))
                    (Fixture.xrayCentring !! name) in
         update name float_t dflt s' = (py_float v, s')
         /\ update name int_t dflt s' = (py_int v, s')
         /\ update name str_t dflt s' = (Ret (py_str v), s').
Proof.
  apply (update_context_keeps_previous_context "xrayCentring" Fixture.xrayCentring
           Fixture.loopCentring Fixture.global Fixture.constructed_object);
    [reflexivity | vm_compute; reflexivity].
Defined.

Lemma __init___materialises_the_layered_lookup_witness :
  exists g c d,
    load_json Fixture.fs "OAVCentring.json" = Ret (g, c)
    /\ c !! "loopCentring" = Some d
    /\ configuration Fixture.constructed_object
       = ("zoom.xml", "OAVCentring.json", "display.configuration", "loopCentring",
          g, c, [d; g])
    /\ assigned (gain Fixture.constructed_object) (py_float (chain_get [d; g] "gain" VNone))
    /\ assigned (exposure Fixture.constructed_object)
         (py_float (chain_get [d; g] "exposure" VNone)).
Proof.
  destruct (__init___materialises_the_layered_lookup Fixture.fs "loopCentring" "zoom.xml"
              "OAVCentring.json" "display.configuration" Fixture.constructed_object)
    as (g & c & d & Hjson & Hd & Hc & He & _ & Hg & _); [vm_compute; reflexivity |].
  exists g, c, d. repeat split; assumption.
Defined.

Lemma __init___leaves_every_attribute_assigned_witness :
  (exists d x y,
     max_tip_distance Fixture.constructed_object = Some d
     /\ micronsPerXPixel Fixture.constructed_object = Some x
     /\ micronsPerYPixel Fixture.constructed_object = Some y
     /\ PrimFloat.eqb x 0%float = false
     /\ max_tip_distance_pixels Fixture.constructed_object = Some (d / x)%float)
  /\ (exists a b,
        beam_centre Fixture.constructed_object = (Some a, Some b, Some a, Some b)
        /\ forall h v,
             calculate_beam_distance h v Fixture.constructed_object
             = (Ret (a - h, b - v), Fixture.constructed_object)).
Proof.
  apply (__init___leaves_every_attribute_assigned Fixture.fs "loopCentring" "zoom.xml"
           "OAVCentring.json" "display.configuration").
  vm_compute. reflexivity.
Defined.

Lemma update_self_assigns_layered_lookups_witness :
  let s := Fixture.loaded "zoom.xml" "display.configuration" 1.0%float in
  let s' := snd (update_self_from_current_context s) in
  update_self_from_current_context s = (Ret tt, s')
  /\ assigned (gain s') (py_float (chain_get (active_params s) "gain" VNone))
  /\ gain s' = Some 2.0%float
  /\ active_params s' = active_params s.
Proof.
  cbv zeta.
  assert (E : update_self_from_current_context
                (Fixture.loaded "zoom.xml" "display.configuration" 1.0%float)
              = (Ret tt, snd (update_self_from_current_context
                                (Fixture.loaded "zoom.xml" "display.configuration" 1.0%float))))
    by (vm_compute; reflexivity).
  split; [exact E |].
  pose proof (update_self_assigns_layered_lookups _ _ E) as HH. cbv zeta in HH.
  destruct HH as (_ & _ & Hg & H').
  split; [exact Hg |]. split; [vm_compute; reflexivity |].
  destruct H' as (_ & _ & _ & _ & _ & _ & _ & _ & _ & _ & _ & H'). exact H'.
Defined.

Lemma update_self_failures_are_conversion_errors_witness :
  let s := Fixture.object "zoom.xml" "display.configuration"
             [{[ "exposure" := VStr "fast" ]}; Fixture.global] 5.0%float 300%float in
  update_self_from_current_context s = (Raise (Exn ValueError None), s)
  /\ exn_msg (Exn ValueError None) = None
  /\ is_conversion_error (exn_cls (Exn ValueError None)) = true.
Proof.
  cbv zeta.
  assert (E : update_self_from_current_context
                (Fixture.object "zoom.xml" "display.configuration"
                   [{[ "exposure" := VStr "fast" ]}; Fixture.global] 5.0%float 300%float)
              = (Raise (Exn ValueError None),
                 Fixture.object "zoom.xml" "display.configuration"
                   [{[ "exposure" := VStr "fast" ]}; Fixture.global] 5.0%float 300%float))
    by (vm_compute; reflexivity).
  split; [exact E |].
  exact (update_self_failures_are_conversion_errors _ _ _ E).
Defined.

Lemma update_self_required_parameter_missing_witness :
  exists e s',
    update_self_from_current_context
      (set_active_params [Fixture.xrayCentring; Fixture.loopCentring]
         Fixture.constructed_object) = (Raise e, s')
    /\ exn_msg e = None /\ is_conversion_error (exn_cls e) = true.
Proof.
  apply (update_self_required_parameter_missing "exposure").
  - repeat constructor.
  - unfold absent. by_evaluation.
Defined.

Lemma update_self_applies_defaults_witness :
  let s' := snd (update_self_from_current_context
                   (Fixture.loaded "zoom.xml" "display.configuration" 1.0%float)) in
  canny_edge_lower_threshold s' = Some 5.0%float
  /\ close_ksize s' = Some 11
  /\ min_callback_time s' = Some 0.08%float
  /\ max_tip_distance s' = Some 300%float.
Proof.
  cbv zeta.
  destruct (update_self_applies_defaults
              (Fixture.loaded "zoom.xml" "display.configuration" 1.0%float)
              (snd (update_self_from_current_context
                      (Fixture.loaded "zoom.xml" "display.configuration" 1.0%float))))
    as (H1 & H2 & H3 & H4 & _); [vm_compute; reflexivity |].
  split; [apply H1 | split; [apply H2 | split; [apply H3 | apply H4]]];
    unfold absent; by_evaluation.
Defined.

Lemma update_self_is_idempotent_witness :
  let s' := snd (update_self_from_current_context
                   (Fixture.loaded "zoom.xml" "display.configuration" 1.0%float)) in
  update_self_from_current_context s' = (Ret tt, s').
Proof.
  cbv zeta.
  apply (update_self_is_idempotent
           (Fixture.loaded "zoom.xml" "display.configuration" 1.0%float)).
  vm_compute. reflexivity.
Defined.

Lemma load_microns_per_pixel_returns_last_match_witness :
  let s := Fixture.loaded "duplicated.xml" "display.configuration" 5.0%float in
  let s' := snd (load_microns_per_pixel Fixture.fs VNone s) in
  exists z root pre n post x y d,
    effective_zoom VNone s = Some z
    /\ et_parse Fixture.fs (zoom_params_file s) = Ret root
    /\ findall "zoomLevel" root = pre ++ n :: post
    /\ matches z n = true
    /\ Forall (fun m => matches z m = false) post
    /\ child_float "micronsPerXPixel" n = Ret x
    /\ child_float "micronsPerYPixel" n = Ret y
    /\ max_tip_distance s = Some d
    /\ micronsPerXPixel s' = Some x
    /\ micronsPerYPixel s' = Some y
    /\ max_tip_distance_pixels s' = Some (d / x)%float.
Proof.
  cbv zeta. apply (load_microns_per_pixel_returns_last_match Fixture.fs).
  vm_compute. reflexivity.
Defined.

Lemma load_microns_per_pixel_is_idempotent_witness :
  let s' := snd (load_microns_per_pixel Fixture.fs (VFloat 5.0%float)
                   (Fixture.loaded "zoom.xml" "display.configuration" 1.0%float)) in
  load_microns_per_pixel Fixture.fs (VFloat 5.0%float) s' = (Ret tt, s').
Proof.
  cbv zeta.
  apply (load_microns_per_pixel_is_idempotent Fixture.fs (VFloat 5.0%float)
           (Fixture.loaded "zoom.xml" "display.configuration" 1.0%float)).
  vm_compute. reflexivity.
Defined.

Lemma load_microns_per_pixel_no_match_resets_the_scales_witness :
  let s := set_max_tip_distance_pixels (Some 600%float)
             (Fixture.loaded "zoom.xml" "display.configuration" 5.0%float) in
  exists s',
    load_microns_per_pixel Fixture.fs (VFloat 7.0%float) s
    = (Raise (Exn OAVError_ZoomLevelNotFound (Some
         ("Could not find the micronsPer[X,Y]Pixel parameters in " +:+ zoom_params_file s
          +:+ " for zoom level " +:+ py_str (VFloat 7.0%float) +:+ "."))), s')
    /\ micronsPerXPixel s' = None /\ micronsPerYPixel s' = None
    /\ max_tip_distance_pixels s' = max_tip_distance_pixels s
    /\ configuration s' = configuration s /\ parameters s' = parameters s
    /\ beam_centre s' = beam_centre s.
Proof.
  cbv zeta.
  apply (load_microns_per_pixel_no_match_resets_the_scales Fixture.fs (VFloat 7.0%float)
           (VFloat 7.0%float) (Fixture.zoom_levels_tree Fixture.calibration));
    by_evaluation.
Defined.

Lemma load_microns_per_pixel_zero_scale_witness :
  let s := Fixture.loaded "zero_scale.xml" "display.configuration" 5.0%float in
  exists s',
    @load_microns_per_pixel EdgeFixture.builtins EdgeFixture.fs VNone s
    = (Raise (Exn ZeroDivisionError None), s')
    /\ micronsPerXPixel s' = Some 0%float /\ micronsPerYPixel s' = Some 0%float
    /\ max_tip_distance_pixels s' = max_tip_distance_pixels s.
Proof.
  cbv zeta.
  apply (@load_microns_per_pixel_zero_scale EdgeFixture.builtins EdgeFixture.fs VNone
           (VFloat 5.0%float) (Fixture.zoom_levels_tree EdgeFixture.zero_scale)
           [] (Fixture.zoom_level_node "5.0" "0.0" "0.0") [] 0%float 300%float);
    by_evaluation.
Defined.

Lemma load_microns_per_pixel_unreadable_file_witness :
  let s := Fixture.loaded "missing.xml" "display.configuration" 5.0%float in
  load_microns_per_pixel Fixture.fs VNone s = (Raise (Exn FileNotFoundError None), s).
Proof.
  cbv zeta.
  apply (proj1 (load_microns_per_pixel_unreadable_file Fixture.fs VNone (VFloat 5.0%float)
                  (Fixture.loaded "missing.xml" "display.configuration" 5.0%float)
                  eq_refl)).
  reflexivity.
Defined.

Lemma load_microns_per_pixel_node_without_level_witness :
  let s := Fixture.loaded "no_level.xml" "display.configuration" 5.0%float in
  exists s',
    @load_microns_per_pixel EdgeFixture.builtins EdgeFixture.fs VNone s
    = (Raise (Exn AttributeError None), s')
    /\ max_tip_distance_pixels s' = max_tip_distance_pixels s.
Proof.
  cbv zeta.
  apply (@load_microns_per_pixel_node_without_level EdgeFixture.builtins EdgeFixture.fs VNone
           (VFloat 5.0%float) EdgeFixture.no_level_tree
           [Fixture.zoom_level_node "5.0" "0.5" "0.5"]
           (Element "zoomLevel" None [ Element "micronsPerXPixel" (Some "0.5") [] ]) []);
    by_evaluation.
Defined.

Lemma _extract_beam_position_marker_near_end_witness :
  let s := Fixture.loaded "zoom.xml" "display_marker_near_end.configuration" 1.0%float in
  @_extract_beam_position EdgeFixture.builtins EdgeFixture.fs s
  = (Raise (Exn IndexError None), s).
Proof.
  cbv zeta.
  apply (@_extract_beam_position_marker_near_end EdgeFixture.builtins EdgeFixture.fs
           1.0%float EdgeFixture.display_marker_near_end [] "zoomLevel = 1.0
" ["crosshairX = 100
"]); try by_evaluation.
  simpl. lia.
Defined.

Lemma _extract_beam_position_second_line_malformed_witness :
  let s := Fixture.loaded "zoom.xml" "display_malformed.configuration" 1.0%float in
  @_extract_beam_position EdgeFixture.builtins EdgeFixture.fs s
  = (Raise (Exn ValueError None), set_beam_centre_i (Some 100) s).
Proof.
  cbv zeta.
  apply (@_extract_beam_position_second_line_malformed EdgeFixture.builtins EdgeFixture.fs
           1.0%float EdgeFixture.display_malformed [] "zoomLevel = 1.0
" "crosshairX = 100
" "crosshairY = abc
" []); by_evaluation.
Defined.

Lemma _extract_beam_position_returns_first_marker_witness :
  let s := Fixture.loaded "zoom.xml" "display.configuration" 5.0%float in
  let s' := snd (_extract_beam_position Fixture.fs s) in
  exists z text pre line x y rest a b,
    zoom s = Some z
    /\ read_file Fixture.fs (display_config s) = Ret text
    /\ readlines text = pre ++ line :: x :: y :: rest
    /\ Forall (fun l => is_marker l z = false) pre
    /\ is_marker line z = true
    /\ crosshair_value x = Ret a
    /\ crosshair_value y = Ret b
    /\ beam_centre s' = (Some a, Some b, Some a, Some b).
Proof.
  cbv zeta. apply (_extract_beam_position_returns_first_marker Fixture.fs).
  vm_compute. reflexivity.
Defined.

Lemma _extract_beam_position_then_calculate_beam_distance_witness :
  let s' := snd (_extract_beam_position Fixture.fs
                   (Fixture.loaded "zoom.xml" "display.configuration" 5.0%float)) in
  exists a b,
    beam_centre s' = (Some a, Some b, Some a, Some b)
    /\ forall h v, calculate_beam_distance h v s' = (Ret (a - h, b - v), s').
Proof.
  cbv zeta.
  apply (_extract_beam_position_then_calculate_beam_distance Fixture.fs
           (Fixture.loaded "zoom.xml" "display.configuration" 5.0%float)).
  vm_compute. reflexivity.
Defined.

Lemma _extract_beam_position_raises_no_error_of_the_module_witness :
  let s := Fixture.loaded "zoom.xml" "display_other_level.configuration" 1.0%float in
  _extract_beam_position Fixture.fs s = (Raise (Exn UnboundLocalError None), s)
  /\ exn_msg (Exn UnboundLocalError None) = None
  /\ is_oav_error (exn_cls (Exn UnboundLocalError None)) = false.
Proof.
  cbv zeta.
  assert (E : _extract_beam_position Fixture.fs
                (Fixture.loaded "zoom.xml" "display_other_level.configuration" 1.0%float)
              = (Raise (Exn UnboundLocalError None),
                 Fixture.loaded "zoom.xml" "display_other_level.configuration" 1.0%float))
    by (vm_compute; reflexivity).
  split; [exact E |].
  exact (_extract_beam_position_raises_no_error_of_the_module Fixture.fs _ _ _ E).
Defined.
